(** * gistapi: searching a user's gists with a regular expression

    A shallow embedding of [gistapi/gistapi.py]: the gist fetcher
    [get_gist], the paginated lister [gists_for_user], the aggregator
    [get_gist_files_content] and the orchestrator [search], followed by
    the properties of the specification that concern them.

    Python values decoded from JSON are modelled by [json]; exceptions
    and the two pieces of state the module has (the outbound requests it
    performs, and the list object created for the default argument
    [data=[]] of [gists_for_user]) are threaded through a small monad. *)

From Stdlib Require Import ZArith Ascii String.
From stdpp Require Import base strings list gmap.

Open Scope Z_scope.
Open Scope string_scope.
Open Scope list_scope.

(** ** Decoded JSON values

    A Python [dict] keeps its keys in insertion order, and the source
    depends on it ([list(post_data.keys())], [files.values()]), so a
    mapping is an association list.  The decoder never produces the same
    key twice; nothing below needs that invariant.  Numbers are the
    integers; a non-integer number is not represented. *)

#[local] Set Warnings "-register-all".

Inductive json : Type :=
  | JNull
  | JBool (b : bool)
  | JNum (z : Z)
  | JStr (s : string)
  | JList (l : list json)
  | JDict (d : list (string * json)).

(** Python's [False], what the fetcher returns for "no record". *)
Definition PyFalse : json := JBool false.

(** [bool(v)]: the truth value used by [if v:]. *)
Definition truthy (v : json) : bool :=
  match v with
  | JNull => false
  | JBool b => b
  | JNum z => negb (Z.eqb z 0)
  | JStr s => negb (String.eqb s "")
  | JList l => match l with [] => false | _ => true end
  | JDict d => match d with [] => false | _ => true end
  end.

Fixpoint dict_get (k : string) (d : list (string * json)) : option json :=
  match d with
  | [] => None
  | (k', v) :: d' => if String.eqb k' k then Some v else dict_get k d'
  end.

Definition dict_keys (d : list (string * json)) : list string := d.*1.
Definition dict_values (d : list (string * json)) : list json := d.*2.

(** [k in keys]. *)
Definition key_in (k : string) (keys : list string) : bool :=
  existsb (String.eqb k) keys.

(** The line feed, Python's ["\n"]. *)
Definition newline : string := String (Ascii.ascii_of_nat 10) EmptyString.

(** ** Exceptions and outcomes *)

Inductive exn : Type :=
  | ValueError (msg : string)
  | AttributeError
  | TypeError
  | JSONDecodeError
  | ReError              (* re.error: the pattern does not compile *)
  | ConnectionError.     (* requests.get did not complete *)

Inductive outcome (A : Type) : Type :=
  | Return (a : A)
  | Raise (e : exn).
Arguments Return {A} a.
Arguments Raise {A} e.

Definition obind {A B} (o : outcome A) (k : A → outcome B) : outcome B :=
  match o with
  | Return a => k a
  | Raise e => Raise e
  end.

(** [v.keys()], [v.get(k, default)], [v.values()]: only a dict has them. *)
Definition py_keys (v : json) : outcome (list string) :=
  match v with
  | JDict d => Return (dict_keys d)
  | _ => Raise AttributeError
  end.

Definition py_get (v : json) (k : string) (default : json) : outcome json :=
  match v with
  | JDict d => Return (from_option id default (dict_get k d))
  | _ => Raise AttributeError
  end.

Definition py_values (v : json) : outcome (list json) :=
  match v with
  | JDict d => Return (dict_values d)
  | _ => Raise AttributeError
  end.

(** [v + s] for a string [s]: defined when [v] is a string, a
    [TypeError] for [None] and every other decoded value. *)
Definition py_add_str (v : json) (s : string) : outcome string :=
  match v with
  | JStr t => Return (t +:+ s)
  | _ => Raise TypeError
  end.

(** [v == s] for a string [s]. *)
Definition py_eq_str (v : json) (s : string) : bool :=
  match v with
  | JStr t => String.eqb t s
  | _ => false
  end.

(** ** State: the outbound requests and the default-argument list *)

Record state : Type := State {
  default_data : list json;   (* the list built once for [data=[]] *)
  requests : list string      (* URLs requested so far, oldest first *)
}.

Definition initial_state : state := State [] [].

(** A computation: [None] when the recursion fuel ran out. *)
Definition M (A : Type) : Type := state → option (outcome A * state).

Definition ret {A} (a : A) : M A := λ σ, Some (Return a, σ).
Definition raise {A} (e : exn) : M A := λ σ, Some (Raise e, σ).
Definition out_of_fuel {A} : M A := λ _, None.
Definition lift {A} (o : outcome A) : M A := λ σ, Some (o, σ).

Definition bind {A B} (m : M A) (k : A → M B) : M B :=
  λ σ, match m σ with
       | Some (Return a, σ') => k a σ'
       | Some (Raise e, σ') => Some (Raise e, σ')
       | None => None
       end.

(** [try: body except: handler] with a bare [except], which catches
    every exception; what [body] did to the state before raising stays. *)
Definition try_except {A} (body handler : M A) : M A :=
  λ σ, match body σ with
       | Some (Raise _, σ') => handler σ'
       | r => r
       end.

Notation "'let*' x := m 'in' k" := (bind m (λ x, k))
  (at level 10, x name, m at level 100, k at level 200,
   format "'[v' 'let*'  x  :=  m  'in'  '/' k ']'").

(** ** The upstream API

    A completed exchange carries a status code, the body as
    [response.json()] decodes it ([None]: decoding raises) and the URL
    of the ["next"] relation of [response.links] when there is one. *)

Record response : Type := Response {
  status_code : Z;
  json_body : option json;
  next_link : option string
}.

(** What each URL answers; [None] when the exchange does not complete. *)
Definition upstream : Type := string → option response.

(** A list as a Python reference: the default-argument object, or a
    list built by the call that returns it. *)
Inductive listref : Type :=
  | DefaultArg
  | Fresh (l : list json).

Definition deref (σ : state) (r : listref) : list json :=
  match r with
  | DefaultArg => default_data σ
  | Fresh l => l
  end.

(** The search result, the dict handed to [jsonify]. *)
Record result : Type := Result {
  status : string;
  username : json;
  pattern : json;
  matches : list string
}.

(** ** Python's [re], as far as the module uses it

    [match_at p s i] says that [p] matches [s] starting at index [i];
    [Pattern.match] is the case [i = 0] and [Pattern.search] any [i]. *)

Class RegexEngine : Type := {
  Pattern : Type;
  re_compile : string → option Pattern;
  match_at : Pattern → string → nat → bool
}.

Definition Pattern_match `{RegexEngine} (p : Pattern) (s : string) : bool :=
  match_at p s 0%nat.

Definition Pattern_search `{RegexEngine} (p : Pattern) (s : string) : bool :=
  existsb (match_at p s) (seq 0 (S (String.length s))).

(** ** The module *)

Section gistapi.

Context `{RegexEngine}.

(** [str(v)] for a decoded value that is not a string ([None], a number,
    a list, ...): Python's formatting, not part of the module. *)
Variable str_other : json → string.

Variable api : upstream.

(** [ping()]. *)
Definition ping : string := "pong".

(** What ["{id}".format(id=v)] and ["%s" % v] insert for [v]. *)
Definition py_str (v : json) : string :=
  match v with
  | JStr s => s
  | _ => str_other v
  end.

(** [re.compile(pattern)]. *)
Definition py_re_compile (pattern : json) : outcome Pattern :=
  match pattern with
  | JStr s => match re_compile s with
              | Some p => Return p
              | None => Raise ReError
              end
  | _ => Raise TypeError
  end.

(** [requests.get(url)]: one outbound call, recorded. *)
Definition requests_get (url : string) : M response :=
  λ σ, let σ' := State (default_data σ) (requests σ ++ [url]) in
       match api url with
       | Some r => Some (Return r, σ')
       | None => Some (Raise ConnectionError, σ')
       end.

(** [response.json()]. *)
Definition response_json (r : response) : M json :=
  match json_body r with
  | Some v => ret v
  | None => raise JSONDecodeError
  end.

Definition gist_api_url (id : json) : string :=
  "https://api.github.com/gists/" +:+ py_str id.

Definition get_gist (id : json) : M json :=
  let gist_url := gist_api_url id in
  let* response := requests_get gist_url in
  if bool_decide (status_code response ∈ [403; 404]) then
    ret PyFalse
  else
    try_except
      (let* response_data := response_json response in
       let* response_keys := lift (py_keys response_data) in
       if key_in "documentation_url" response_keys
          && key_in "message" response_keys
       then ret PyFalse
       else ret response_data)
      (ret PyFalse).

(** [data += response_data] on the default-argument list. *)
Definition extend_data (items : list json) : M unit :=
  λ σ, Some (Return (), State (default_data σ ++ items) (requests σ)).

(** The request URL of one call: [url] when it is given and not empty,
    else the first page of the user's listing.  No call site passes
    [page] or [per_page], so both are 1. *)
Definition gists_url (username : json) (url : option string) : string :=
  let gists_url :=
    "https://api.github.com/users/" +:+ py_str username
      +:+ "/gists?page=1&per_page=1" in
  match url with
  | Some u => if String.eqb u "" then gists_url else u
  | None => gists_url
  end.

(** [gists_for_user(username, url=url, data=data)].  The only caller
    outside the function passes [username] alone and the recursive call
    passes its own [data] on, so [data] is always the list object made
    once for the default [data=[]]: the function appends to the cell
    [default_data] and returns a reference to it.  [fuel] bounds the
    chain of ["next"] links that is followed. *)
Fixpoint gists_for_user (fuel : nat) (username : json) (url : option string)
    : M listref :=
  match fuel with
  | O => out_of_fuel
  | S fuel' =>
    let* response := requests_get (gists_url username url) in
    if Z.eqb (status_code response) 422 then
      ret (Fresh [])
    else
      try_except
        (let* response_data := response_json response in
         match response_data with
         | JList items =>
           let* _ := extend_data items in
           match next_link response with
           | Some next => gists_for_user fuel' (JStr "") (Some next)
           | None => ret DefaultArg
           end
         | _ => ret (Fresh [])
         end)
        (ret (Fresh []))
  end.

(** The loop of [get_gist_files_content]. *)
Fixpoint files_content (files_data : list json) (content : string)
    : outcome string :=
  match files_data with
  | [] => Return content
  | item :: rest =>
    obind (py_get item "content" JNull) (λ c,
    obind (py_add_str c newline) (λ line,
    files_content rest (content +:+ line)))
  end.

Definition get_gist_files_content (gist_data : json) : outcome string :=
  let content := "" in
  obind (py_get gist_data "files" JNull) (λ files,
  if truthy files then
    obind (py_values files) (λ files_data,
    files_content files_data content)
  else Return content).

Definition gist_html_url (username id : json) : string :=
  "https://gist.github.com/" +:+ py_str username +:+ "/" +:+ py_str id.

(** One turn of the [for gist in gists] loop of [search]. *)
Definition search_step (pattern username gist : json) (matches : list string)
    : M (list string) :=
  let* id := lift (py_get gist "id" JNull) in
  let* gist_data := get_gist id in
  if truthy gist_data then
    let* pattern_re := lift (py_re_compile pattern) in
    let* content := lift (get_gist_files_content gist_data) in
    if Pattern_match pattern_re content then
      ret (matches ++ [gist_html_url username id])
    else ret matches
  else ret matches.

Fixpoint search_loop (pattern username : json) (gists : list json)
    (matches : list string) : M (list string) :=
  match gists with
  | [] => ret matches
  | gist :: rest =>
    let* matches' := search_step pattern username gist matches in
    search_loop pattern username rest matches'
  end.

(** [list(set(matches))]; the order Python gives is arbitrary, the one
    of [elements] stands for it. *)
Definition list_set (matches : list string) : list string :=
  elements (list_to_set matches : gset string).

(** [search()], with [post_data] the value of [request.get_json()]. *)
Definition search (fuel : nat) (post_data : json) : M result :=
  let* keys := lift (py_keys post_data) in
  if bool_decide (["username"; "pattern"] ≠ keys) then
    raise (ValueError "Keys does not match with post_data keys")
  else
    let* username := lift (py_get post_data "username" (JStr "")) in
    let* pattern := lift (py_get post_data "pattern" (JStr "")) in
    if py_eq_str username "" || py_eq_str pattern "" then
      raise (ValueError "Pattern & Username values should not be empty!")
    else
      let* gists := gists_for_user fuel username None in
      let* gists := (λ σ, Some (Return (deref σ gists), σ)) in
      let* matches := search_loop pattern username gists [] in
      ret (Result "success" username pattern (list_set matches)).

End gistapi.

(** ** A small regular-expression engine

    An instance of [RegexEngine] to run the module on concrete requests:
    the fragment of Python's pattern syntax made of literal characters,
    [.], [^], [*], [|] and groups.  A pattern that uses anything else is
    outside the fragment and is not accepted by this instance. *)

Module MiniRe.

Inductive regex : Type :=
  | Empty                       (* matches nothing *)
  | Eps                         (* the empty string *)
  | Bol                         (* ^ : the beginning of the string *)
  | Chr (c : ascii)
  | Dot                         (* any character but the line feed *)
  | Cat (r1 r2 : regex)
  | Alt (r1 r2 : regex)
  | Star (r : regex).

(** Does [r] match the empty string here?  [bos]: no character of the
    subject has been consumed yet. *)
Fixpoint nullable (bos : bool) (r : regex) : bool :=
  match r with
  | Empty | Chr _ | Dot => false
  | Eps | Star _ => true
  | Bol => bos
  | Cat r1 r2 => nullable bos r1 && nullable bos r2
  | Alt r1 r2 => nullable bos r1 || nullable bos r2
  end.

(** What is left of [r] once it has consumed [c]. *)
Fixpoint deriv (bos : bool) (c : ascii) (r : regex) : regex :=
  match r with
  | Empty | Eps | Bol => Empty
  | Chr c' => if Ascii.eqb c c' then Eps else Empty
  | Dot => if Ascii.eqb c (Ascii.ascii_of_nat 10) then Empty else Eps
  | Cat r1 r2 =>
    Alt (Cat (deriv bos c r1) r2)
        (if nullable bos r1 then deriv bos c r2 else Empty)
  | Alt r1 r2 => Alt (deriv bos c r1) (deriv bos c r2)
  | Star r1 => Cat (deriv bos c r1) (Star r1)
  end.

(** Some prefix of [s] is matched by [r]. *)
Fixpoint prefix_match (bos : bool) (r : regex) (s : string) : bool :=
  nullable bos r ||
  match s with
  | EmptyString => false
  | String c s' => prefix_match false (deriv bos c r) s'
  end.

Fixpoint string_drop (n : nat) (s : string) : string :=
  match n, s with
  | O, _ => s
  | S n', String _ s' => string_drop n' s'
  | S _, EmptyString => EmptyString
  end.

(** A branch being read: the alternatives already closed and the atoms
    of the current one, both latest first.  The flag of an atom says
    whether a [*] may follow it. *)
Definition frame : Type := list regex * list (regex * bool).

Definition seq_of (atoms : list (regex * bool)) : regex :=
  fold_left (λ acc a, Cat (fst a) acc) atoms Eps.

Definition close (f : frame) : regex :=
  fold_left (λ acc b, Alt b acc) (fst f) (seq_of (snd f)).

Definition unsupported (c : ascii) : bool :=
  existsb (Ascii.eqb c) (list_ascii_of_string "+?[]{}\$").

Fixpoint parse (s : string) (stack : list frame) (cur : frame)
    : option regex :=
  match s with
  | EmptyString =>
    match stack with
    | [] => Some (close cur)
    | _ :: _ => None                      (* a group is left open *)
    end
  | String c s' =>
    if Ascii.eqb c "("%char then parse s' (cur :: stack) ([], [])
    else if Ascii.eqb c ")"%char then
      match stack with
      | [] => None                        (* nothing to close *)
      | (alts, atoms) :: stack' =>
        parse s' stack' (alts, (close cur, true) :: atoms)
      end
    else if Ascii.eqb c "|"%char then
      parse s' stack (seq_of (snd cur) :: fst cur, [])
    else if Ascii.eqb c "*"%char then
      match snd cur with
      | (r, true) :: atoms => parse s' stack (fst cur, (Star r, false) :: atoms)
      | _ => None                         (* nothing to repeat *)
      end
    else if Ascii.eqb c "^"%char then parse s' stack (fst cur, (Bol, false) :: snd cur)
    else if Ascii.eqb c "."%char then parse s' stack (fst cur, (Dot, true) :: snd cur)
    else if unsupported c then None
    else parse s' stack (fst cur, (Chr c, true) :: snd cur)
  end.

Definition compile (s : string) : option regex := parse s [] ([], []).

Definition matches_from (r : regex) (s : string) (i : nat) : bool :=
  (i <=? String.length s)%nat
  && prefix_match (Nat.eqb i 0) r (string_drop i s).

#[export] Instance engine : RegexEngine :=
  {| Pattern := regex; re_compile := compile; match_at := matches_from |}.

End MiniRe.

(** ** A concrete upstream *)

Module Example.

Import MiniRe.

(** The examples format strings only. *)
Definition str_other : json → string := λ _, "?".

Definition summary (id : string) : json := JDict [("id", JStr id)].

Definition gist_file (name content : string) : string * json :=
  (name, JDict [("content", JStr content)]).

Definition ok (body : json) (next : option string) : response :=
  Response 200 (Some body) next.

Definition not_found : response :=
  Response 404
    (Some (JDict [("message", JStr "Not Found");
                  ("documentation_url", JStr "https://docs.github.com/rest")]))
    None.

Definition users : string := "https://api.github.com/users/".
Definition first_page : string := "/gists?page=1&per_page=1".
Definition page (n : string) : string :=
  "https://api.github.com/user/1/gists?per_page=1&page=" +:+ n.
Definition gists : string := "https://api.github.com/gists/".

(** alice has three gists, listed on three pages of one item; bob's
    second page is refused; carol has no gist; dave's single page lists
    gists whose records are unusual. *)
Definition table : list (string * response) :=
  [ (users +:+ "alice" +:+ first_page, ok (JList [summary "1"]) (Some (page "2")));
    (page "2", ok (JList [summary "2"]) (Some (page "3")));
    (page "3", ok (JList [summary "3"]) None);
    (users +:+ "bob" +:+ first_page, ok (JList [summary "4"]) (Some (page "b2")));
    (page "b2", Response 422 None None);
    (users +:+ "carol" +:+ first_page, ok (JList []) None);
    (users +:+ "dave" +:+ first_page,
       ok (JList [summary "5"; summary "6"; summary "7"; summary "8"]) None);
    (gists +:+ "1", ok (JDict [("id", JStr "1");
                               ("files", JDict [gist_file "a.txt" "hello world"])]) None);
    (gists +:+ "2", ok (JDict [("id", JStr "2");
                               ("files", JDict [gist_file "b.txt" "goodbye"])]) None);
    (gists +:+ "3", ok (JDict [("id", JStr "3");
                               ("files", JDict [gist_file "c.txt" "say hello"])]) None);
    (gists +:+ "4", ok (JDict [("id", JStr "4");
                               ("files", JDict [gist_file "d.txt" "hello bob"])]) None);
    (gists +:+ "5", ok (JDict []) None);
    (gists +:+ "6", ok (JDict [("files", JDict [])]) None);
    (gists +:+ "7", ok (JList []) None);
    (gists +:+ "8", Response 200
                      (Some (JDict [("message", JStr "API rate limit exceeded");
                                    ("documentation_url", JStr "https://docs.github.com/rest")]))
                      None) ].

Fixpoint answer (t : list (string * response)) (url : string) : response :=
  match t with
  | [] => not_found
  | (u, r) :: t' => if String.eqb u url then r else answer t' url
  end.

Definition api : upstream := λ url, Some (answer table url).

(** The same upstream on a day when the third page of alice's listing
    cannot be reached. *)
Definition flaky : upstream :=
  λ url, if String.eqb url (page "3") then None else api url.

(** alice's listing, page by page, and the first page of bob's. *)
Definition alice_pages : list (string * list json) :=
  [ (users +:+ "alice" +:+ first_page, [summary "1"]);
    (page "2", [summary "2"]);
    (page "3", [summary "3"]) ].

Definition bob_pages : list (string * list json) :=
  [ (users +:+ "bob" +:+ first_page, [summary "4"]) ].

(** The compiled form of a pattern of the fragment. *)
Definition compiled (s : string) : regex := default Empty (compile s).

Definition run_search (fuel : nat) (post_data : json) : M result :=
  search str_other api fuel post_data.

Definition run_gists_for_user (fuel : nat) (username : string) : M listref :=
  gists_for_user str_other api fuel (JStr username) None.

End Example.

(** ** Specification-side notions *)

Definition is_dict (v : json) : Prop := ∃ d, v = JDict d.
Definition is_list (v : json) : Prop := ∃ l, v = JList l.

(** The error envelope of the upstream API. *)
Definition error_envelope (d : list (string * json)) : Prop :=
  "documentation_url" ∈ dict_keys d ∧ "message" ∈ dict_keys d.

(** A listing page that makes the lister give up: status 422, a body
    that does not decode, or one that decodes to something else than a
    list. *)
Definition page_fails (r : response) : Prop :=
  status_code r = 422 ∨ json_body r = None
  ∨ ∃ b, json_body r = Some b ∧ ¬ is_list b.

Section listing.

Variable str_other : json → string.
Variable api : upstream.

(** What one fetch leaves behind: the state with one more request. *)
Definition fetched (id : json) (σ : state) : state :=
  State (default_data σ) (requests σ ++ [gist_api_url str_other id]).

(** [follows u pages stop]: requesting [u] and then every ["next"] link
    serves [pages], each given with the URL it was requested at, all
    with a list body and a status other than 422.  [stop] is [None]
    when the last page carries no ["next"] link, and [Some u'] when it
    links to [u'], the request that would come next. *)
Fixpoint follows (u : string) (pages : list (string * list json))
    (stop : option string) : Prop :=
  match pages with
  | [] => stop = Some u
  | (u0, items) :: rest =>
    u0 = u ∧ ∃ r, api u = Some r ∧ status_code r ≠ 422
      ∧ json_body r = Some (JList items)
      ∧ match next_link r with
        | Some next => follows (gists_url str_other (JStr "") (Some next)) rest stop
        | None => rest = [] ∧ stop = None
        end
  end.

(** All the items of the pages, in page order. *)
Definition items_of (pages : list (string * list json)) : list json :=
  concat pages.*2.

End listing.

(** The payload [{"username": u, "pattern": p}]. *)
Definition payload (u p : string) : json :=
  JDict [("username", JStr u); ("pattern", JStr p)].

(** A file entry that is a mapping whose [content] is the string [s]. *)
Definition has_content (item : json) (s : string) : Prop :=
  ∃ e, item = JDict e ∧ dict_get "content" e = Some (JStr s).

(** The contents, each followed by a line feed. *)
Definition joined (contents : list string) : string :=
  fold_right (λ s acc, s +:+ newline +:+ acc) "" contents.

Section reporting.

Context `{RegexEngine}.
Variable str_other : json → string.
Variable api : upstream.

(** The id of a listed gist, when the item is a mapping. *)
Definition listed_id (gist : json) : option json :=
  match py_get gist "id" JNull with
  | Return id => Some id
  | Raise _ => None
  end.

(** The fetch URLs of the listed gists, in listing order. *)
Definition fetch_urls (gists : list json) : list string :=
  omap (λ gist, gist_api_url str_other <$> listed_id gist) gists.

(** [reported pattern username gist url]: the gist is one whose fetch
    gives a record that is not empty, whose content aggregates, and at
    the beginning of whose content the compiled pattern matches; [url]
    is its page. *)
Definition reported (pattern username gist : json) (url : string) : Prop :=
  ∃ id gist_data p text,
    py_get gist "id" JNull = Return id
    ∧ get_gist str_other api id initial_state
      = Some (Return gist_data, fetched str_other id initial_state)
    ∧ truthy gist_data = true
    ∧ py_re_compile pattern = Return p
    ∧ get_gist_files_content gist_data = Return text
    ∧ Pattern_match p text = true
    ∧ url = gist_html_url str_other username id.

(** A listed gist whose fetch gives nothing to search: [False] or the
    empty mapping; and one whose fetch gives a record. *)
Definition no_record (gist : json) : Prop :=
  ∃ id gist_data,
    py_get gist "id" JNull = Return id
    ∧ get_gist str_other api id initial_state
      = Some (Return gist_data, fetched str_other id initial_state)
    ∧ truthy gist_data = false.

Definition some_record (gist : json) : Prop :=
  ∃ id gist_data,
    py_get gist "id" JNull = Return id
    ∧ get_gist str_other api id initial_state
      = Some (Return gist_data, fetched str_other id initial_state)
    ∧ truthy gist_data = true.

(** A listed gist the loop gets past: it is a mapping, its fetch
    completes, and the record fetched, if not empty, aggregates. *)
Definition servable (gist : json) : Prop :=
  ∃ id gist_data,
    py_get gist "id" JNull = Return id
    ∧ get_gist str_other api id initial_state
      = Some (Return gist_data, fetched str_other id initial_state)
    ∧ (truthy gist_data = true →
       ∃ text, get_gist_files_content gist_data = Return text).

End reporting.

(** * Properties *)

Lemma key_in_spec (k : string) (keys : list string) :
  key_in k keys = true ↔ k ∈ keys.
Proof.
  unfold key_in. rewrite existsb_exists. split.
  - intros (x & Hx & Heq). apply String.eqb_eq in Heq. subst x.
    by apply list_elem_of_In.
  - intros Hk. exists k. split; [by apply list_elem_of_In | apply String.eqb_refl].
Qed.

(** ** The gist fetcher *)

Section fetcher.

Variable str_other : json → string.
Variable api : upstream.

#[local] Abbreviation get_gist' := (get_gist str_other api).
#[local] Abbreviation gist_api_url' := (gist_api_url str_other).
#[local] Abbreviation fetched' := (fetched str_other).

(** A fetch always completes, with exactly one outbound call. *)
Lemma get_gist_total id σ : ∃ out, get_gist' id σ = Some (out, fetched' id σ).
Proof.
  unfold get_gist, bind, requests_get, try_except, response_json, lift, ret, raise.
  destruct (api _) as [r|]; [|by eexists].
  case_bool_decide; [by eexists|].
  destruct (json_body r) as [[]|]; simpl; try by eexists.
  destruct (_ && _); by eexists.
Qed.

Lemma get_gist_state id σ out σ' :
  get_gist' id σ = Some (out, σ') → σ' = fetched' id σ.
Proof.
  destruct (get_gist_total id σ) as [out' Hrun]. rewrite Hrun. congruence.
Qed.

(** The only exception that leaves the fetcher is a failed exchange. *)
Lemma get_gist_raise id σ e σ' :
  get_gist' id σ = Some (Raise e, σ') → e = ConnectionError.
Proof.
  unfold get_gist, bind, requests_get, try_except, response_json, lift, ret, raise.
  destruct (api _) as [r|]; [|congruence].
  case_bool_decide; [congruence|].
  destruct (json_body r) as [[]|]; simpl; try congruence.
  destruct (_ && _); congruence.
Qed.

(** What the fetcher returns is [False] or a dict. *)
Lemma get_gist_value id σ v σ' :
  get_gist' id σ = Some (Return v, σ') → v = PyFalse ∨ is_dict v.
Proof.
  unfold get_gist, bind, requests_get, try_except, response_json, lift, ret, raise.
  destruct (api _) as [r|]; [|congruence].
  case_bool_decide; [intros [= <- _]; by left|].
  destruct (json_body r) as [[]|]; simpl; try (intros [= <- _]; by left).
  destruct (_ && _); intros [= <- _]; [by left | right; by eexists].
Qed.

(** C5, as the code has it: for an exchange that completes, [get_gist]
    performs one request and returns [False] exactly when the status is
    403 or 404, the body does not decode, the decoded body is not a
    mapping, or it is a mapping with both a [documentation_url] and a
    [message] key; in every other case it returns the decoded mapping
    unchanged. *)
Theorem get_gist_absent_iff (id : json) (σ : state) (r : response) :
  api (gist_api_url' id) = Some r →
  ∃ v, get_gist' id σ = Some (Return v, fetched' id σ)
    ∧ (v = PyFalse ↔
         status_code r = 403 ∨ status_code r = 404 ∨ json_body r = None
         ∨ (∃ b, json_body r = Some b ∧ ¬ is_dict b)
         ∨ (∃ d, json_body r = Some (JDict d) ∧ error_envelope d))
    ∧ (v ≠ PyFalse → json_body r = Some v).
Proof.
  intros Hr.
  unfold get_gist, bind, requests_get, try_except, response_json, lift, ret, raise.
  rewrite Hr. fold (fetched' id σ).
  case_bool_decide as Hst.
  { exists PyFalse. split; [done|]. split; [|done].
    split; [intros _|done].
    apply elem_of_cons in Hst as [->|Hst]; [by left|].
    apply elem_of_cons in Hst as [->|Hst]; [by right; left|].
    by apply elem_of_nil in Hst. }
  assert (status_code r ≠ 403 ∧ status_code r ≠ 404) as [H403 H404].
  { split; intros Heq; apply Hst; rewrite Heq; set_solver. }
  destruct (json_body r) as [b|] eqn:Hb; simpl.
  2:{ exists PyFalse. split; [done|]. split; [|done]. split; [intros _|done].
      by right; right; left. }
  assert (∀ b', (¬ is_dict b') → Some b = Some b' →
            (PyFalse = PyFalse ↔
               status_code r = 403 ∨ status_code r = 404 ∨ Some b = None
               ∨ (∃ b0, Some b = Some b0 ∧ ¬ is_dict b0)
               ∨ (∃ d, Some b = Some (JDict d) ∧ error_envelope d))) as Hnd.
  { intros b' Hnot Heq. split; [intros _|done].
    right; right; right; left. by exists b'. }
  destruct b as [|b0|z|s|l|d]; simpl;
    try (exists PyFalse; split; [done|]; split; [|done];
         eapply Hnd; [|done]; by intros [? ?]).
  destruct (key_in "documentation_url" (dict_keys d)
            && key_in "message" (dict_keys d)) eqn:Hk.
  - exists PyFalse. split; [done|]. split; [|done]. split; [intros _|done].
    apply andb_true_iff in Hk as [Hk1 Hk2].
    right; right; right; right. exists d. split; [done|].
    split; by apply key_in_spec.
  - exists (JDict d). split; [done|]. split; [|done].
    split; [discriminate|].
    intros [?|[?|[?|[(b & [= <-] & Hnot)|(d' & [= <-] & Hd1 & Hd2)]]]];
      try done.
    + exfalso. apply Hnot. by eexists.
    + apply key_in_spec in Hd1, Hd2. by rewrite Hd1, Hd2 in Hk.
Qed.

End fetcher.

(** ** The content aggregator *)

(** When every file entry is a mapping whose [content] is a string, the
    aggregation is the contents in the order of the mapping, each
    followed by a line feed. *)
Lemma files_content_strings (contents : list string) (content : string) :
  files_content ((λ c, JDict [("content", JStr c)]) <$> contents) content
  = Return (fold_left (λ acc c, acc +:+ c +:+ newline) contents content).
Proof.
  revert content. induction contents as [|c cs IH]; intros content; [done|].
  simpl. apply IH.
Qed.

(** C8: a file entry without [content] makes the aggregator raise a
    [TypeError] instead of contributing the empty string; a record
    without [files], or with an empty [files] mapping, gives the empty
    string. *)
Theorem get_gist_files_content_absent_content
    (id : json) (name : string) (entries : list (string * json)) :
  get_gist_files_content
    (JDict [("id", id); ("files", JDict ((name, JDict []) :: entries))])
  = Raise TypeError
  ∧ get_gist_files_content (JDict [("id", id)]) = Return ""
  ∧ get_gist_files_content (JDict [("id", id); ("files", JDict [])]) = Return "".
Proof. by repeat split. Qed.

(** ** The lister *)

Section lister.

Variable str_other : json → string.
Variable api : upstream.

#[local] Abbreviation gists_url' := (gists_url str_other).
#[local] Abbreviation gists_for_user' := (gists_for_user str_other api).
#[local] Abbreviation follows' := (follows str_other api).

Lemma try_except_ret_no_raise {A} (body : M A) (a : A) σ e σ' :
  try_except body (ret a) σ ≠ Some (Raise e, σ').
Proof.
  unfold try_except, ret. by destruct (body σ) as [[[?|?] ?]|].
Qed.

(** The lister lets no exception out but a failed exchange. *)
Lemma gists_for_user_raise fuel username url σ e σ' :
  gists_for_user' fuel username url σ = Some (Raise e, σ') →
  e = ConnectionError.
Proof.
  destruct fuel as [|fuel]; simpl; [done|].
  unfold bind at 1, requests_get.
  destruct (api _) as [r|]; [|congruence].
  destruct (Z.eqb _ _); [done|].
  intros Hrun. by apply try_except_ret_no_raise in Hrun.
Qed.

(** One call on a page that is served: the items are appended to the
    default list, and the ["next"] link, if any, is followed. *)
Lemma gists_for_user_page fuel username url σ r items :
  api (gists_url' username url) = Some r →
  status_code r ≠ 422 →
  json_body r = Some (JList items) →
  gists_for_user' (S fuel) username url σ =
    let σ1 := State (default_data σ ++ items)
                    (requests σ ++ [gists_url' username url]) in
    match next_link r with
    | None => Some (Return DefaultArg, σ1)
    | Some next =>
      match gists_for_user' fuel (JStr "") (Some next) σ1 with
      | Some (Raise _, σ2) => Some (Return (Fresh []), σ2)
      | res => res
      end
    end.
Proof.
  intros Hr Hst Hbody. simpl.
  unfold bind at 1, requests_get. rewrite Hr.
  apply Z.eqb_neq in Hst. rewrite Hst.
  unfold try_except, response_json. rewrite Hbody.
  unfold bind, ret, extend_data; simpl.
  by destruct (next_link r).
Qed.

(** A listing whose last page has no ["next"] link is read to the end:
    one request per page, all items appended to the default list, which
    is what the call returns. *)
Lemma gists_for_user_complete pages : ∀ fuel username url σ,
  follows' (gists_url' username url) pages None →
  (length pages ≤ fuel)%nat →
  gists_for_user' fuel username url σ =
    Some (Return DefaultArg,
          State (default_data σ ++ items_of pages) (requests σ ++ pages.*1)).
Proof.
  induction pages as [|[u0 items] rest IH]; intros fuel username url σ Hf Hfuel;
    [done|].
  destruct fuel as [|fuel]; [simpl in Hfuel; lia|].
  destruct Hf as (-> & r & Hr & Hst & Hbody & Hnext).
  rewrite (gists_for_user_page _ _ _ _ r items) by done.
  unfold items_of; simpl.
  destruct (next_link r) as [next|].
  - rewrite IH; [|done|simpl in Hfuel; lia]. simpl.
    unfold items_of. by rewrite <- !app_assoc.
  - destruct Hnext as [-> _]. simpl. by rewrite !app_nil_r.
Qed.

(** C6: a listing of n pages chained by ["next"] links is read to its
    end, one request per page and in the order of the links, as soon as
    the recursion may go n deep; the call returns the default list,
    which then holds what it held before followed by the items of all
    the pages in page order.  That is the items of the pages when the
    default list was empty, as in a fresh process, and a longer list
    whenever an earlier call has left items in it. *)
Theorem gists_for_user_all_pages
    (pages : list (string * list json)) (fuel : nat) (username : json)
    (σ : state) :
  follows' (gists_url' username None) pages None →
  (length pages ≤ fuel)%nat →
  ∃ σ', gists_for_user' fuel username None σ = Some (Return DefaultArg, σ')
    ∧ requests σ' = requests σ ++ pages.*1
    ∧ deref σ' DefaultArg = default_data σ ++ items_of pages
    ∧ (default_data σ = [] → deref σ' DefaultArg = items_of pages)
    ∧ (default_data σ ≠ [] → deref σ' DefaultArg ≠ items_of pages).
Proof.
  intros Hf Hfuel. eexists. split; [by apply gists_for_user_complete|].
  simpl. repeat split; [by intros ->|].
  intros Hne Heq. apply Hne.
  apply (f_equal length) in Heq. rewrite length_app in Heq.
  apply length_zero_iff_nil. lia.
Qed.

(** C7, as the code has it: when the first k pages are served and the
    next one fails (status 422, a body that does not decode or is not a
    list), the call returns a new empty list, after k+1 requests. *)
Theorem gists_for_user_failing_page
    (pages : list (string * list json)) : ∀ (fuel : nat) (username : json)
    (url : option string) (σ : state) (u' : string) (r' : response),
  follows' (gists_url' username url) pages (Some u') →
  api u' = Some r' →
  page_fails r' →
  (length pages < fuel)%nat →
  ∃ σ', gists_for_user' fuel username url σ = Some (Return (Fresh []), σ')
    ∧ requests σ' = requests σ ++ pages.*1 ++ [u'].
Proof.
  induction pages as [|[u0 items] rest IH];
    intros fuel username url σ u' r' Hf Hr' Hfail Hfuel.
  - destruct fuel as [|fuel]; [simpl in Hfuel; lia|].
    simpl in Hf. injection Hf as Hu. subst u'. simpl.
    unfold bind at 1, requests_get. rewrite Hr'.
    destruct (Z.eqb _ _) eqn:Hst; [by eexists|].
    apply Z.eqb_neq in Hst.
    unfold try_except, response_json, bind, raise, ret.
    destruct (json_body r') as [b|] eqn:Hb; [|by eexists].
    destruct b; try by eexists.
    destruct Hfail as [?|[?|(b & Hb' & Hnot)]]; [done|congruence|].
    exfalso. apply Hnot. simplify_eq. by eexists.
  - destruct fuel as [|fuel]; [simpl in Hfuel; lia|].
    destruct Hf as (-> & r & Hr & Hst & Hbody & Hnext).
    rewrite (gists_for_user_page _ _ _ _ r items) by done. simpl.
    destruct (next_link r) as [next|]; [|by destruct Hnext].
    edestruct (IH fuel (JStr "") (Some next)) as (σ' & -> & Hreq);
      [done..|simpl in Hfuel; lia|].
    exists σ'. repeat split. rewrite Hreq. simpl. by rewrite <- app_assoc.
Qed.

(** C3: the default list outlives the call.  Two successive calls
    against the same upstream both return it; after the first it holds
    the listing, after the second the listing twice. *)
Theorem gists_for_user_twice
    (pages : list (string * list json)) (fuel : nat) (username : json) :
  follows' (gists_url' username None) pages None →
  (length pages ≤ fuel)%nat →
  ∃ σ1 σ2,
    gists_for_user' fuel username None initial_state
      = Some (Return DefaultArg, σ1)
    ∧ gists_for_user' fuel username None σ1 = Some (Return DefaultArg, σ2)
    ∧ deref σ1 DefaultArg = items_of pages
    ∧ deref σ2 DefaultArg = items_of pages ++ items_of pages
    ∧ (items_of pages ≠ [] → deref σ1 DefaultArg ≠ deref σ2 DefaultArg).
Proof.
  intros Hf Hfuel. do 2 eexists.
  split; [by apply gists_for_user_complete|].
  split; [by apply gists_for_user_complete|].
  simpl. repeat split. intros Hne Heq. apply Hne.
  apply (f_equal length) in Heq. rewrite length_app in Heq.
  apply length_zero_iff_nil. lia.
Qed.

End lister.

(** ** The orchestrator *)

Lemma bind_Return {A B} (m : M A) (k : A → M B) σ b σ' :
  bind m k σ = Some (Return b, σ') →
  ∃ a σ1, m σ = Some (Return a, σ1) ∧ k a σ1 = Some (Return b, σ').
Proof.
  unfold bind. destruct (m σ) as [[[a|e] σ1]|]; [eauto|done..].
Qed.

Lemma dict_keys_two (d : list (string * json)) (k1 k2 : string) :
  dict_keys d = [k1; k2] → ∃ v1 v2, d = [(k1, v1); (k2, v2)].
Proof.
  destruct d as [|[? v1] [|[? v2] [|? ?]]]; simpl; intros [=]; subst; eauto.
Qed.

Lemma py_eq_str_true (v : json) (s : string) :
  py_eq_str v s = true ↔ v = JStr s.
Proof.
  destruct v; simpl; try (split; [done|discriminate]).
  rewrite String.eqb_eq. split; [by intros -> | by intros [= ->]].
Qed.

(** The exceptions of the aggregator. *)
Lemma files_content_raise files_data : ∀ content e,
  files_content files_data content = Raise e →
  e = AttributeError ∨ e = TypeError.
Proof.
  induction files_data as [|item rest IH]; intros content e; simpl; [done|].
  destruct item as [| | | | |d]; simpl; try (intros [= <-]; by left).
  destruct (from_option id JNull (dict_get "content" d)); simpl;
    try (intros [= <-]; by right).
  apply IH.
Qed.

Lemma get_gist_files_content_raise gist_data e :
  get_gist_files_content gist_data = Raise e →
  e = AttributeError ∨ e = TypeError.
Proof.
  unfold get_gist_files_content.
  destruct gist_data as [| | | | |d]; simpl; try (intros [= <-]; by left).
  destruct (truthy _); [|done].
  destruct (from_option id JNull (dict_get "files" d)); simpl;
    try (intros [= <-]; by left).
  apply files_content_raise.
Qed.

Section orchestrator.

Context `{RegexEngine}.
Variable str_other : json → string.
Variable api : upstream.

#[local] Abbreviation get_gist' := (get_gist str_other api).
#[local] Abbreviation gist_api_url' := (gist_api_url str_other).
#[local] Abbreviation gist_html_url' := (gist_html_url str_other).
#[local] Abbreviation gists_for_user' := (gists_for_user str_other api).
#[local] Abbreviation search_step' := (search_step str_other api).
#[local] Abbreviation search_loop' := (search_loop str_other api).
#[local] Abbreviation search' := (search str_other api).

(** One turn of the loop, case by case. *)
Lemma search_step_run pattern username gist matches σ :
  search_step' pattern username gist matches σ =
    match py_get gist "id" JNull with
    | Raise e => Some (Raise e, σ)
    | Return id =>
      match get_gist' id σ with
      | Some (Return gist_data, σ') =>
        if truthy gist_data then
          match py_re_compile pattern with
          | Raise e => Some (Raise e, σ')
          | Return p =>
            match get_gist_files_content gist_data with
            | Raise e => Some (Raise e, σ')
            | Return content =>
              Some (Return (if Pattern_match p content
                            then matches ++ [gist_html_url' username id]
                            else matches), σ')
            end
          end
        else Some (Return matches, σ')
      | Some (Raise e, σ') => Some (Raise e, σ')
      | None => None
      end
    end.
Proof.
  unfold search_step, bind, lift, ret.
  destruct (py_get gist "id" JNull) as [id|e]; [|done].
  destruct (get_gist' id σ) as [[[gist_data|e] σ']|]; [|done..].
  destruct (truthy gist_data); [|done].
  destruct (py_re_compile pattern) as [p|e]; [|done].
  destruct (get_gist_files_content gist_data) as [content|e]; [|done].
  by destruct (Pattern_match p content).
Qed.

Lemma py_re_compile_raise pattern e :
  py_re_compile pattern = Raise e → e = ReError ∨ e = TypeError.
Proof.
  destruct pattern; simpl; try (intros [= <-]; by right).
  destruct (re_compile s); [done|intros [= <-]; by left].
Qed.

(** The loop raises no [ValueError]. *)
Lemma search_step_raise pattern username gist matches σ e σ' :
  search_step' pattern username gist matches σ = Some (Raise e, σ') →
  ∀ msg, e ≠ ValueError msg.
Proof.
  rewrite search_step_run.
  destruct (py_get gist "id" JNull) as [id|e0] eqn:Hid.
  2:{ destruct gist; simpl in Hid; congruence. }
  destruct (get_gist' id σ) as [[[gist_data|e0] σ1]|] eqn:Hg; [| |done].
  2:{ apply get_gist_raise in Hg. congruence. }
  destruct (truthy gist_data); [|done].
  destruct (py_re_compile pattern) as [p|e0] eqn:Hp.
  2:{ apply py_re_compile_raise in Hp as [-> | ->]; congruence. }
  destruct (get_gist_files_content gist_data) as [content|e0] eqn:Hc; [done|].
  apply get_gist_files_content_raise in Hc as [-> | ->]; congruence.
Qed.

Lemma search_loop_raise pattern username gists : ∀ matches σ e σ',
  search_loop' pattern username gists matches σ = Some (Raise e, σ') →
  ∀ msg, e ≠ ValueError msg.
Proof.
  induction gists as [|gist rest IH]; intros matches σ e σ'; simpl; [done|].
  unfold bind at 1.
  destruct (search_step' _ _ _ _ _) as [[[ms|e0] σ1]|] eqn:Hstep; [|  |done].
  - apply IH.
  - intros [= <- <-]. by eapply search_step_raise.
Qed.

(** C1: when the record is fetched, the pattern compiles and the
    content aggregates to [text], the gist's URL is appended to the
    matches if and only if the pattern matches [text] at index 0
    ([Pattern.match]); matches that begin further in the string
    ([Pattern.search]) play no part. *)
Theorem search_step_prefix_match
    (pattern username gist id gist_data : json) (matches : list string)
    (σ σ' : state) (p : Pattern) (text : string) :
  py_get gist "id" JNull = Return id →
  get_gist' id σ = Some (Return gist_data, σ') →
  truthy gist_data = true →
  py_re_compile pattern = Return p →
  get_gist_files_content gist_data = Return text →
  ∃ matches',
    search_step' pattern username gist matches σ = Some (Return matches', σ')
    ∧ (matches' = matches ++ [gist_html_url' username id]
       ↔ match_at p text 0 = true)
    ∧ (matches' = matches ↔ match_at p text 0 = false).
Proof.
  intros Hid Hg Ht Hp Hc.
  rewrite search_step_run, Hid, Hg, Ht, Hp, Hc.
  unfold Pattern_match. eexists. split; [done|].
  assert (matches ++ [gist_html_url' username id] ≠ matches) as Hne.
  { intros Heq. apply (f_equal length) in Heq.
    rewrite length_app in Heq. simpl in Heq. lia. }
  destruct (match_at p text 0); split; split; done.
Qed.

(** C10: a fetched record that is the empty mapping is skipped like
    [False]; a record whose [files] is an empty mapping aggregates to
    the empty string and is recorded when the pattern matches it. *)
Theorem search_step_empty_record
    (pattern username gist id : json) (matches : list string)
    (σ σ' : state) :
  py_get gist "id" JNull = Return id →
  (get_gist' id σ = Some (Return (JDict []), σ') →
   search_step' pattern username gist matches σ = Some (Return matches, σ'))
  ∧ (get_gist' id σ = Some (Return PyFalse, σ') →
     search_step' pattern username gist matches σ = Some (Return matches, σ'))
  ∧ (∀ d p, get_gist' id σ = Some (Return (JDict d), σ') →
       dict_get "files" d = Some (JDict []) →
       py_re_compile pattern = Return p →
       get_gist_files_content (JDict d) = Return ""
       ∧ search_step' pattern username gist matches σ
         = Some (Return (if match_at p "" 0
                         then matches ++ [gist_html_url' username id]
                         else matches), σ')).
Proof.
  intros Hid. rewrite search_step_run, Hid.
  split; [by intros ->|]. split; [by intros ->|].
  intros d p -> Hfiles Hp.
  assert (get_gist_files_content (JDict d) = Return "") as Hc.
  { unfold get_gist_files_content. simpl. by rewrite Hfiles. }
  split; [done|].
  destruct d as [|kv d]; [done|]. simpl. by rewrite Hp, Hc.
Qed.

(** [search] on a payload that passes validation. *)
Lemma search_run_valid fuel v1 v2 σ :
  py_eq_str v1 "" || py_eq_str v2 "" = false →
  search' fuel (JDict [("username", v1); ("pattern", v2)]) σ =
    match gists_for_user' fuel v1 None σ with
    | Some (Return gists, σ0) =>
      match search_loop' v2 v1 (deref σ0 gists) [] σ0 with
      | Some (Return ms, σ1) =>
        Some (Return (Result "success" v1 v2 (list_set ms)), σ1)
      | Some (Raise e, σ1) => Some (Raise e, σ1)
      | None => None
      end
    | Some (Raise e, σ0) => Some (Raise e, σ0)
    | None => None
    end.
Proof.
  intros Hne. unfold search, bind, lift, ret; simpl.
  by rewrite Hne.
Qed.

(** [search] on a payload that does not. *)
Lemma search_run_invalid fuel d σ :
  dict_keys d ≠ ["username"; "pattern"]
  ∨ dict_get "username" d = Some (JStr "")
  ∨ dict_get "pattern" d = Some (JStr "") →
  ∃ msg, search' fuel (JDict d) σ = Some (Raise (ValueError msg), σ).
Proof.
  intros Hbad. unfold search, bind, lift, raise; simpl.
  case_bool_decide as Hk; [by eexists|].
  assert (dict_keys d = ["username"; "pattern"]) as Hkeys by done.
  destruct Hbad as [?|[Hu|Hp]]; [done| |].
  - rewrite Hu; simpl. by eexists.
  - rewrite Hp; simpl. rewrite orb_true_r. by eexists.
Qed.

(** C4, as the code has it: [search] raises [ValueError] exactly when
    the payload is a mapping whose key sequence is not [username]
    followed by [pattern], or whose [username] or [pattern] is the
    empty string; it has then made no outbound call. *)
Theorem search_value_error_iff (fuel : nat) (post_data : json) (σ : state) :
  ((∃ msg σ', search' fuel post_data σ = Some (Raise (ValueError msg), σ'))
   ↔ ∃ d, post_data = JDict d
        ∧ (dict_keys d ≠ ["username"; "pattern"]
           ∨ dict_get "username" d = Some (JStr "")
           ∨ dict_get "pattern" d = Some (JStr "")))
  ∧ (∀ msg σ', search' fuel post_data σ = Some (Raise (ValueError msg), σ') →
       σ' = σ).
Proof.
  assert (∀ msg σ',
    search' fuel post_data σ = Some (Raise (ValueError msg), σ') →
    σ' = σ ∧ ∃ d, post_data = JDict d
        ∧ (dict_keys d ≠ ["username"; "pattern"]
           ∨ dict_get "username" d = Some (JStr "")
           ∨ dict_get "pattern" d = Some (JStr ""))) as Hinv.
  { intros msg σ' Hrun.
    destruct post_data as [| | | | |d]; try (by inversion Hrun).
    destruct (decide (dict_keys d = ["username"; "pattern"])) as [Hkeys|Hkeys].
    2:{ destruct (search_run_invalid fuel d σ) as [msg' Hbad]; [by left|].
        rewrite Hbad in Hrun. split; [congruence|]. exists d. split; [done|by left]. }
    destruct (dict_keys_two _ _ _ Hkeys) as (v1 & v2 & ->).
    destruct (py_eq_str v1 "" || py_eq_str v2 "") eqn:Hempty.
    - assert (dict_get "username" [("username", v1); ("pattern", v2)]
                = Some (JStr "")
              ∨ dict_get "pattern" [("username", v1); ("pattern", v2)]
                = Some (JStr "")) as Hbad.
      { apply orb_true_iff in Hempty as [He|He];
          apply py_eq_str_true in He as ->; [by left|by right]. }
      destruct (search_run_invalid fuel _ σ (or_intror Hbad)) as [msg' Hrun'].
      rewrite Hrun' in Hrun. split; [congruence|]. eexists. split; [done|].
      by right.
    - exfalso. rewrite search_run_valid in Hrun by done.
      destruct (gists_for_user' fuel v1 None σ) as [[[gists|e] σ0]|] eqn:Hl;
        [| |done].
      2:{ apply gists_for_user_raise in Hl. congruence. }
      destruct (search_loop' v2 v1 (deref σ0 gists) [] σ0)
        as [[[ms|e] σ1]|] eqn:Hloop; [done| |done].
      apply search_loop_raise with (msg := msg) in Hloop. congruence. }
  split; [split|].
  - intros (msg & σ' & Hrun). by apply Hinv in Hrun as [_ ?].
  - intros (d & -> & Hbad).
    destruct (search_run_invalid fuel d σ Hbad) as [msg Hrun]. eauto.
  - intros msg σ' Hrun. by apply Hinv in Hrun as [? _].
Qed.

(** C9: the matches of a result are [list(set(...))] of the collected
    URLs: no URL occurs twice, and deduplicating again changes nothing. *)
Theorem search_matches_nodup
    (fuel : nat) (post_data : json) (σ σ' : state) (r : result) :
  search' fuel post_data σ = Some (Return r, σ') →
  NoDup (matches r)
  ∧ list_set (matches r) = matches r
  ∧ ∃ collected, matches r = list_set collected.
Proof.
  intros Hrun.
  assert (∃ collected, matches r = list_set collected) as [collected Hm].
  { destruct post_data as [| | | | |d]; try (by inversion Hrun).
    destruct (decide (dict_keys d = ["username"; "pattern"])) as [Hkeys|Hkeys].
    2:{ destruct (search_run_invalid fuel d σ) as [msg' Hbad]; [by left|].
        congruence. }
    destruct (dict_keys_two _ _ _ Hkeys) as (v1 & v2 & ->).
    destruct (py_eq_str v1 "" || py_eq_str v2 "") eqn:Hempty.
    { unfold search, bind, lift, raise in Hrun; simpl in Hrun.
      by rewrite Hempty in Hrun. }
    rewrite search_run_valid in Hrun by done.
    destruct (gists_for_user' fuel v1 None σ) as [[[gists|e] σ0]|]; [|done..].
    destruct (search_loop' v2 v1 (deref σ0 gists) [] σ0)
      as [[[ms|e] σ1]|]; [|done..].
    injection Hrun as <- _. by eexists. }
  rewrite Hm. unfold list_set. split; [apply NoDup_elements|].
  split; [|by eexists]. by rewrite list_to_set_elements_L.
Qed.

End orchestrator.

(** * Further properties of the module *)

(** ** The aggregator on whole records *)

Lemma string_app_assoc (s1 s2 s3 : string) :
  (s1 +:+ s2) +:+ s3 = s1 +:+ (s2 +:+ s3).
Proof.
  induction s1 as [|c s1 IH]; [done|].
  change (String c ((s1 +:+ s2) +:+ s3) = String c (s1 +:+ (s2 +:+ s3))).
  by rewrite IH.
Qed.

Lemma files_content_joined files_data : ∀ contents content,
  Forall2 has_content files_data contents →
  files_content files_data content = Return (content +:+ joined contents).
Proof.
  induction files_data as [|item rest IH]; intros contents content Hall.
  - apply Forall2_nil_inv_l in Hall as ->. simpl.
    f_equal. induction content as [|c content IHc]; [done|].
    change (String c content = String c (content +:+ "")). by rewrite <- IHc.
  - apply Forall2_cons_inv_l in Hall as (s & contents' & (e & -> & Hs) & Hrest & ->).
    simpl. rewrite Hs. simpl. rewrite (IH _ _ Hrest).
    by rewrite !string_app_assoc.
Qed.

Lemma files_content_defined files_data : ∀ content,
  (∃ s, files_content files_data content = Return s)
  ↔ Forall (λ item, ∃ s, has_content item s) files_data.
Proof.
  induction files_data as [|item rest IH]; intros content; simpl.
  { split; [by constructor|by eexists]. }
  split.
  - intros [s Hrun].
    destruct item as [| | | | |e]; simpl in Hrun; try done.
    destruct (dict_get "content" e) as [[| | |c| |]|] eqn:Hc;
      simpl in Hrun; try done.
    constructor; [by exists c, e|]. apply (IH (content +:+ c +:+ newline)).
    by exists s.
  - intros Hall. apply Forall_cons in Hall as [(c & e & -> & Hc) Hrest].
    simpl. rewrite Hc. simpl. by apply IH.
Qed.

(** X1: for a record whose [files] is a mapping of entries that each
    carry a string [content], the aggregation is the contents in the
    order of the mapping, each followed by a line feed; the file names
    and the other keys of the record and of its entries play no part. *)
Theorem get_gist_files_content_joined
    (d entries : list (string * json)) (contents : list string) :
  dict_get "files" d = Some (JDict entries) →
  Forall2 has_content (dict_values entries) contents →
  get_gist_files_content (JDict d) = Return (joined contents).
Proof.
  intros Hfiles Hall. unfold get_gist_files_content. simpl. rewrite Hfiles.
  simpl. destruct entries as [|kv entries].
  - by apply Forall2_nil_inv_l in Hall as ->.
  - simpl. change (files_content (dict_values (kv :: entries)) ""
                   = Return ("" +:+ joined contents)).
    by apply files_content_joined.
Qed.

(** X2: the aggregator returns a string exactly when the [files] of the
    record is absent or falsy ([None], [False], 0, an empty string,
    list or mapping), or is a mapping whose every entry is a mapping
    with a string [content]; on every other record it raises. *)
Theorem get_gist_files_content_defined (d : list (string * json)) :
  (∃ s, get_gist_files_content (JDict d) = Return s)
  ↔ truthy (default JNull (dict_get "files" d)) = false
    ∨ ∃ entries, default JNull (dict_get "files" d) = JDict entries
        ∧ Forall (λ item, ∃ s, has_content item s) (dict_values entries).
Proof.
  unfold get_gist_files_content. simpl.
  destruct (truthy (default JNull (dict_get "files" d))) eqn:Ht.
  2:{ split; [by left|by eexists]. }
  destruct (default JNull (dict_get "files" d)) as [| | | | |entries];
    simpl; try (split; [by intros [? ?]|by intros [?|(? & ? & ?)]]).
  rewrite files_content_defined. split.
  - intros Hall. right. by exists entries.
  - intros [?|(entries' & [= <-] & Hall)]; done.
Qed.

(** ** The fetcher and the lister, whatever the upstream answers *)

Section upstream_failures.

Variable str_other : json → string.
Variable api : upstream.

#[local] Abbreviation get_gist' := (get_gist str_other api).
#[local] Abbreviation gist_api_url' := (gist_api_url str_other).
#[local] Abbreviation fetched' := (fetched str_other).
#[local] Abbreviation gists_url' := (gists_url str_other).
#[local] Abbreviation gists_for_user' := (gists_for_user str_other api).
#[local] Abbreviation follows' := (follows str_other api).

(** What a fetch gives does not depend on the state it starts in. *)
Lemma get_gist_indep id σ1 σ2 out σ1' :
  get_gist' id σ1 = Some (out, σ1') →
  get_gist' id σ2 = Some (out, fetched' id σ2).
Proof.
  unfold get_gist, bind, requests_get, try_except, response_json, lift, ret,
    raise, fetched.
  destruct (api _) as [r|]; [|congruence].
  case_bool_decide; [congruence|].
  destruct (json_body r) as [[]|]; simpl; try congruence.
  destruct (_ && _); congruence.
Qed.

(** X3: every call of [get_gist] makes exactly one request, to the URL
    of the gist, and leaves the rest of the state alone; it raises only
    when the exchange does not complete, and what it gives is the same
    from every state. *)
Theorem get_gist_one_request (id : json) (σ : state) :
  ∃ out, get_gist' id σ = Some (out, fetched' id σ)
    ∧ (api (gist_api_url' id) = None ↔ out = Raise ConnectionError)
    ∧ (∀ e, out = Raise e → e = ConnectionError)
    ∧ (∀ σ2, get_gist' id σ2 = Some (out, fetched' id σ2)).
Proof.
  destruct (get_gist_total str_other api id σ) as [out Hrun].
  exists out. split; [done|]. split; [|split].
  - revert Hrun.
    unfold get_gist, bind, requests_get, try_except, response_json, lift,
      ret, raise.
    destruct (api _) as [r|]; [|by intros [= <-]].
    case_bool_decide; [by intros [= <-]|].
    destruct (json_body r) as [[]|]; simpl; try by intros [= <-].
    destruct (_ && _); by intros [= <-].
  - intros e ->. by eapply get_gist_raise.
  - intros σ2. by eapply get_gist_indep.
Qed.

(** One call of the lister on a page that fails, and on a URL that
    cannot be reached. *)
Lemma gists_for_user_here_fails fuel username url σ r :
  api (gists_url' username url) = Some r →
  page_fails r →
  gists_for_user' (S fuel) username url σ =
    Some (Return (Fresh []),
          State (default_data σ) (requests σ ++ [gists_url' username url])).
Proof.
  intros Hr Hfail. simpl. unfold bind at 1, requests_get. rewrite Hr.
  destruct (Z.eqb _ _) eqn:Hst; [done|]. apply Z.eqb_neq in Hst.
  unfold try_except, response_json, bind, raise, ret.
  destruct (json_body r) as [b|] eqn:Hb; [|done].
  destruct b; try done.
  destruct Hfail as [?|[?|(b & Hb' & Hnot)]]; [done|congruence|].
  exfalso. apply Hnot. simplify_eq. by eexists.
Qed.

Lemma gists_for_user_here_down fuel username url σ :
  api (gists_url' username url) = None →
  gists_for_user' (S fuel) username url σ =
    Some (Raise ConnectionError,
          State (default_data σ) (requests σ ++ [gists_url' username url])).
Proof.
  intros Hr. simpl. unfold bind at 1, requests_get. by rewrite Hr.
Qed.

(** After k pages that are served, the call is decided by what happens
    at the next URL; an exception there is caught by the caller. *)
Lemma gists_for_user_after_pages pages : ∀ fuel username url σ u' out,
  follows' (gists_url' username url) pages (Some u') →
  (∀ fuel' username' url' σ0,
     gists_url' username' url' = u' →
     gists_for_user' (S fuel') username' url' σ0
     = Some (out, State (default_data σ0) (requests σ0 ++ [u']))) →
  (length pages < fuel)%nat →
  gists_for_user' fuel username url σ =
    Some (match pages, out with
          | _ :: _, Raise _ => Return (Fresh [])
          | _, _ => out
          end,
          State (default_data σ ++ items_of pages)
                (requests σ ++ pages.*1 ++ [u'])).
Proof.
  induction pages as [|[u0 items] rest IH];
    intros fuel username url σ u' out Hf Hout Hfuel.
  - destruct fuel as [|fuel]; [simpl in Hfuel; lia|].
    simpl in Hf. injection Hf as Hu.
    rewrite (Hout fuel username url σ (eq_sym Hu)).
    unfold items_of. simpl. by rewrite app_nil_r.
  - destruct fuel as [|fuel]; [simpl in Hfuel; lia|].
    destruct Hf as (-> & r & Hr & Hst & Hbody & Hnext).
    rewrite (gists_for_user_page _ _ _ _ _ _ r items) by done. simpl.
    destruct (next_link r) as [next|]; [|by destruct Hnext].
    rewrite (IH fuel (JStr "") (Some next) _ u' out Hnext Hout)
      by (simpl in Hfuel; lia).
    unfold items_of. simpl. rewrite <- !app_assoc. simpl.
    by destruct rest, out.
Qed.

(** How far a call of the lister can move the state, and what it can
    give. *)
Lemma gists_for_user_inv fuel : ∀ username url σ out σ',
  gists_for_user' fuel username url σ = Some (out, σ') →
  (∃ items reqs,
     default_data σ' = default_data σ ++ items
     ∧ requests σ' = requests σ ++ gists_url' username url :: reqs
     ∧ (length reqs < fuel)%nat)
  ∧ match out with
    | Return l => l = DefaultArg ∨ l = Fresh []
    | Raise e =>
      e = ConnectionError ∧ api (gists_url' username url) = None
      ∧ σ' = State (default_data σ) (requests σ ++ [gists_url' username url])
    end.
Proof.
  induction fuel as [|fuel IH]; intros username url σ out σ'; [done|].
  simpl. unfold bind at 1, requests_get.
  destruct (api _) as [r|] eqn:Hr.
  2:{ intros [= <- <-]. split; [|done].
      exists [], []. simpl. rewrite app_nil_r. split; [done|]. split; [done|lia]. }
  assert (∀ l, (l = DefaultArg ∨ l = Fresh []) →
            (∃ items reqs,
               default_data σ = default_data σ ++ items
               ∧ requests σ ++ [gists_url' username url]
                 = requests σ ++ gists_url' username url :: reqs
               ∧ (length reqs < S fuel)%nat)
            ∧ (Fresh [] = DefaultArg ∨ Fresh [] = Fresh [])) as Hstop.
  { intros l _. split; [|by right]. exists [], []. rewrite app_nil_r.
    split; [done|]. split; [done|simpl; lia]. }
  destruct (Z.eqb _ _).
  { intros [= <- <-]. simpl. apply (Hstop DefaultArg). by left. }
  unfold try_except, response_json, bind at 1, raise, ret.
  destruct (json_body r) as [b|].
  2:{ intros [= <- <-]. simpl. apply (Hstop DefaultArg). by left. }
  destruct b as [| | | |items|];
    try (intros [= <- <-]; simpl; apply (Hstop DefaultArg); by left).
  unfold bind, extend_data.
  destruct (next_link r) as [next|].
  2:{ intros [= <- <-]. simpl. split; [|by left].
      exists items, []. split; [done|]. split; [done|simpl; lia]. }
  destruct (gists_for_user' fuel (JStr "") (Some next) _)
    as [[out1 σ1]|] eqn:Hrec; [|done].
  apply IH in Hrec as [(items1 & reqs1 & Hd & Hq & Hn) Hout1].
  simpl in Hd, Hq.
  assert (∃ items0 reqs,
            default_data σ1 = default_data σ ++ items0
            ∧ requests σ1 = requests σ ++ gists_url' username url :: reqs
            ∧ (length reqs < S fuel)%nat) as Hgrow.
  { exists (items ++ items1), (gists_url' (JStr "") (Some next) :: reqs1).
    rewrite Hd, Hq, <- !app_assoc. split; [done|]. split; [done|simpl; lia]. }
  destruct out1 as [l|e]; intros [= <- <-]; (split; [done|]);
    [done|by right].
Qed.

(** X4: whatever the upstream answers, a call of the lister that comes
    back gives either the default list itself or a new empty list,
    never another list; the only exception it lets out is a failed
    exchange on its own first request, before anything is appended. *)
Theorem gists_for_user_result
    (fuel : nat) (username : json) (url : option string) (σ σ' : state)
    (out : outcome listref) :
  gists_for_user' fuel username url σ = Some (out, σ') →
  match out with
  | Return l => l = DefaultArg ∨ l = Fresh []
  | Raise e =>
    e = ConnectionError ∧ api (gists_url' username url) = None
    ∧ σ' = State (default_data σ) (requests σ ++ [gists_url' username url])
  end.
Proof. intros Hrun. by apply gists_for_user_inv in Hrun as [_ ?]. Qed.

(** X5: a call of the lister only appends: the default list keeps what
    it held and the request log what it recorded; the call makes its
    own request first, and no more requests than its recursion depth. *)
Theorem gists_for_user_appends
    (fuel : nat) (username : json) (url : option string) (σ σ' : state)
    (out : outcome listref) :
  gists_for_user' fuel username url σ = Some (out, σ') →
  ∃ items reqs,
    default_data σ' = default_data σ ++ items
    ∧ requests σ' = requests σ ++ gists_url' username url :: reqs
    ∧ (length reqs < fuel)%nat.
Proof. intros Hrun. by apply gists_for_user_inv in Hrun as [? _]. Qed.

(** X6: an exchange that does not complete is let out as an exception
    on the first request of a listing, and swallowed on every later
    page, where the call returns a new empty list. *)
Theorem gists_for_user_unreachable
    (pages : list (string * list json)) (fuel : nat) (username : json)
    (url : option string) (σ : state) (u' : string) :
  follows' (gists_url' username url) pages (Some u') →
  api u' = None →
  (length pages < fuel)%nat →
  gists_for_user' fuel username url σ =
    Some (match pages with
          | [] => Raise ConnectionError
          | _ :: _ => Return (Fresh [])
          end,
          State (default_data σ ++ items_of pages)
                (requests σ ++ pages.*1 ++ [u'])).
Proof.
  intros Hf Hdown Hfuel.
  rewrite (gists_for_user_after_pages pages fuel username url σ u'
             (Raise ConnectionError)); [by destruct pages|done| |done].
  intros fuel' username' url' σ0 <-. by apply gists_for_user_here_down.
Qed.

(** X7: the pages read before a failing page stay in the default list,
    so the next listing that completes, for whatever user, is returned
    with them in front. *)
Theorem gists_for_user_leaks
    (pagesA pagesB : list (string * list json)) (fuelA fuelB : nat)
    (userA userB : json) (σ : state) (u' : string) (r' : response) :
  follows' (gists_url' userA None) pagesA (Some u') →
  api u' = Some r' →
  page_fails r' →
  (length pagesA < fuelA)%nat →
  follows' (gists_url' userB None) pagesB None →
  (length pagesB ≤ fuelB)%nat →
  ∃ σ1 σ2,
    gists_for_user' fuelA userA None σ = Some (Return (Fresh []), σ1)
    ∧ gists_for_user' fuelB userB None σ1 = Some (Return DefaultArg, σ2)
    ∧ deref σ2 DefaultArg
      = default_data σ ++ items_of pagesA ++ items_of pagesB.
Proof.
  intros HfA Hr' Hfail HfuelA HfB HfuelB. do 2 eexists.
  split.
  { rewrite (gists_for_user_after_pages pagesA fuelA userA None σ u'
               (Return (Fresh []))); [by destruct pagesA|done| |done].
    intros fuel' username' url' σ0 <-.
    by eapply gists_for_user_here_fails. }
  split; [by apply gists_for_user_complete|].
  simpl. by rewrite <- app_assoc.
Qed.

End upstream_failures.

(** ** The orchestrator, request by request *)

Section search_accounts.

Context `{RegexEngine}.
Variable str_other : json → string.
Variable api : upstream.

#[local] Abbreviation get_gist' := (get_gist str_other api).
#[local] Abbreviation gist_api_url' := (gist_api_url str_other).
#[local] Abbreviation gist_html_url' := (gist_html_url str_other).
#[local] Abbreviation fetched' := (fetched str_other).
#[local] Abbreviation gists_url' := (gists_url str_other).
#[local] Abbreviation gists_for_user' := (gists_for_user str_other api).
#[local] Abbreviation follows' := (follows str_other api).
#[local] Abbreviation search_step' := (search_step str_other api).
#[local] Abbreviation search_loop' := (search_loop str_other api).
#[local] Abbreviation search' := (search str_other api).
#[local] Abbreviation fetch_urls' := (fetch_urls str_other).
#[local] Abbreviation reported' := (reported str_other api).
#[local] Abbreviation servable' := (servable str_other api).

(** Where a turn of the loop leaves the state. *)
Lemma search_step_state pattern username gist matches σ out σ' :
  search_step' pattern username gist matches σ = Some (out, σ') →
  match listed_id gist with
  | None => out = Raise AttributeError ∧ σ' = σ
  | Some id => σ' = fetched' id σ
  end.
Proof.
  rewrite search_step_run. unfold listed_id.
  destruct (py_get gist "id" JNull) as [id|e] eqn:Hid.
  2:{ intros [= <- <-]. destruct gist; simpl in Hid; by simplify_eq. }
  destruct (get_gist' id σ) as [[[gist_data|e] σ1]|] eqn:Hg; [| |done].
  2:{ intros [= <- <-]. by eapply get_gist_state. }
  apply get_gist_state in Hg as ->.
  destruct (truthy gist_data); [|by intros [= <- <-]].
  destruct (py_re_compile pattern); [|by intros [= <- <-]].
  destruct (get_gist_files_content gist_data); by intros [= <- <-].
Qed.

(** X8: the loop fetches the listed gists one by one in listing order,
    each at most once and without touching the default list; when it
    comes to its end every listed gist has been fetched exactly once,
    and when it raises the fetches made are a prefix of them. *)
Theorem search_loop_requests
    (pattern username : json) (gists : list json) :
  ∀ (matches : list string) (σ σ' : state) (out : outcome (list string)),
  search_loop' pattern username gists matches σ = Some (out, σ') →
  default_data σ' = default_data σ
  ∧ (∃ n, requests σ' = requests σ ++ take n (fetch_urls' gists))
  ∧ (∀ ms, out = Return ms →
       requests σ' = requests σ ++ fetch_urls' gists
       ∧ length (fetch_urls' gists) = length gists).
Proof.
  induction gists as [|gist rest IH]; intros matches σ σ' out; simpl.
  { intros [= <- <-]. split; [done|]. split.
    - exists 0%nat. by rewrite app_nil_r.
    - intros ms _. by rewrite app_nil_r. }
  unfold bind at 1.
  destruct (search_step' _ _ _ _ _) as [[out1 σ1]|] eqn:Hstep; [|done].
  apply search_step_state in Hstep. unfold fetch_urls. simpl.
  destruct (listed_id gist) as [id|]; simpl.
  2:{ destruct Hstep as [-> ->]. intros [= <- <-]. split; [done|]. split.
      - exists 0%nat. by rewrite take_0, app_nil_r.
      - by intros ms. }
  subst σ1. fold (fetch_urls' rest).
  destruct out1 as [ms1|e].
  - intros Hloop. apply IH in Hloop as (Hd & [n Hn] & Hret). simpl in *.
    split; [done|]. split.
    + exists (S n). rewrite Hn, <- app_assoc. done.
    + intros ms Hms. destruct (Hret ms Hms) as [Hreq Hlen].
      rewrite Hreq, <- app_assoc. simpl. by rewrite Hlen.
  - intros [= <- <-]. simpl. split; [done|]. split.
    + exists 1%nat. simpl. by rewrite take_0.
    + by intros ms.
Qed.

(** What a turn of the loop that returns has recorded. *)
Lemma search_step_reported pattern username gist matches σ ms σ' :
  search_step' pattern username gist matches σ = Some (Return ms, σ') →
  ∀ url, url ∈ ms ↔ url ∈ matches ∨ reported' pattern username gist url.
Proof.
  rewrite search_step_run.
  destruct (py_get gist "id" JNull) as [id|e] eqn:Hid; [|done].
  destruct (get_gist' id σ) as [[[gist_data|e] σ1]|] eqn:Hg; [|done..].
  apply (get_gist_indep _ _ _ _ initial_state) in Hg.
  destruct (truthy gist_data) eqn:Ht.
  2:{ intros [= <- <-] url. split; [by left|].
      intros [?|(id' & gd' & p & text & Hid' & Hg' & Ht' & _)]; [done|].
      congruence. }
  destruct (py_re_compile pattern) as [p|e] eqn:Hp; [|done].
  destruct (get_gist_files_content gist_data) as [text|e] eqn:Hc; [|done].
  intros [= <- <-] url.
  destruct (Pattern_match p text) eqn:Hm.
  - rewrite elem_of_app, list_elem_of_singleton. split.
    + intros [?| ->]; [by left|]. right. by exists id, gist_data, p, text.
    + intros [?|(id' & gd' & p' & text' & Hid' & Hg' & _ & _ & _ & _ & ->)];
        [by left|]. right. congruence.
  - split; [by left|].
    intros [?|(id' & gd' & p' & text' & Hid' & Hg' & _ & Hp' & Hc' & Hm' & _)];
      [done|]. congruence.
Qed.

Lemma search_loop_reported pattern username gists : ∀ matches σ ms σ',
  search_loop' pattern username gists matches σ = Some (Return ms, σ') →
  ∀ url, url ∈ ms
         ↔ url ∈ matches
           ∨ ∃ gist, gist ∈ gists ∧ reported' pattern username gist url.
Proof.
  induction gists as [|gist rest IH]; intros matches σ ms σ'; simpl.
  { intros [= <- <-] url. split; [by left|].
    intros [?|(gist & Hin & _)]; [done|]. by apply elem_of_nil in Hin. }
  intros Hrun. apply bind_Return in Hrun as (ms1 & σ1 & Hstep & Hloop).
  intros url. rewrite (IH _ _ _ _ Hloop url).
  rewrite (search_step_reported _ _ _ _ _ _ _ Hstep url). split.
  - intros [[?|Hrep]|(g & Hin & Hrep)]; [by left|right..].
    + exists gist. split; [by left|done].
    + exists g. split; [by right|done].
  - intros [?|(g & Hin & Hrep)]; [by left; left|].
    apply elem_of_cons in Hin as [->|Hin]; [by left; right|].
    right. by exists g.
Qed.

(** What [search] does with a payload, stage by stage. *)
Lemma search_Return fuel post_data σ r σ' :
  search' fuel post_data σ = Some (Return r, σ') →
  post_data = JDict [("username", username r); ("pattern", pattern r)]
  ∧ status r = "success"
  ∧ py_eq_str (username r) "" || py_eq_str (pattern r) "" = false
  ∧ ∃ listing σ0 ms,
      gists_for_user' fuel (username r) None σ = Some (Return listing, σ0)
      ∧ search_loop' (pattern r) (username r) (deref σ0 listing) [] σ0
        = Some (Return ms, σ')
      ∧ matches r = list_set ms.
Proof.
  intros Hrun.
  destruct post_data as [| | | | |d]; try (by inversion Hrun).
  destruct (decide (dict_keys d = ["username"; "pattern"])) as [Hkeys|Hkeys].
  2:{ destruct (search_run_invalid str_other api fuel d σ) as [msg' Hbad];
        [by left|]. congruence. }
  destruct (dict_keys_two _ _ _ Hkeys) as (v1 & v2 & ->).
  destruct (py_eq_str v1 "" || py_eq_str v2 "") eqn:Hempty.
  { unfold search, bind, lift, raise in Hrun; simpl in Hrun.
    by rewrite Hempty in Hrun. }
  rewrite search_run_valid in Hrun by done.
  destruct (gists_for_user' fuel v1 None σ) as [[[listing|e] σ0]|] eqn:Hl;
    [|done..].
  destruct (search_loop' v2 v1 (deref σ0 listing) [] σ0)
    as [[[ms|e] σ1]|] eqn:Hloop; [|done..].
  injection Hrun as <- <-. simpl. repeat split; [done|].
  by exists listing, σ0, ms.
Qed.

(** X9: a result that [search] returns carries the status [success] and
    the [username] and [pattern] of the payload as they came, neither
    of them the empty string; the payload had exactly these two keys,
    in this order. *)
Theorem search_result_echo
    (fuel : nat) (post_data : json) (σ σ' : state) (r : result) :
  search' fuel post_data σ = Some (Return r, σ') →
  post_data = JDict [("username", username r); ("pattern", pattern r)]
  ∧ status r = "success"
  ∧ username r ≠ JStr "" ∧ pattern r ≠ JStr "".
Proof.
  intros Hrun. apply search_Return in Hrun as (Hpost & Hst & Hne & _).
  split; [done|]. split; [done|].
  apply orb_false_iff in Hne as [Hu Hp].
  split; intros Heq; rewrite Heq in *; done.
Qed.

(** X10: the matches of a result are exactly the pages of the listed
    gists that are reported: a URL is among them if and only if some
    gist of the listing has a record that is not empty at whose
    beginning the pattern matches.  Nothing is lost by the
    deduplication and nothing else is ever reported. *)
Theorem search_matches_iff
    (fuel : nat) (post_data : json) (σ σ' : state) (r : result) :
  search' fuel post_data σ = Some (Return r, σ') →
  ∃ listing σ0,
    gists_for_user' fuel (username r) None σ = Some (Return listing, σ0)
    ∧ ∀ url, url ∈ matches r
             ↔ ∃ gist, gist ∈ deref σ0 listing
                 ∧ reported' (pattern r) (username r) gist url.
Proof.
  intros Hrun.
  apply search_Return in Hrun
    as (_ & _ & _ & listing & σ0 & ms & Hl & Hloop & ->).
  exists listing, σ0. split; [done|]. intros url.
  unfold list_set. rewrite elem_of_elements, elem_of_list_to_set.
  rewrite (search_loop_reported _ _ _ _ _ _ _ Hloop url).
  split; [intros [Hin|?]; [by apply elem_of_nil in Hin|done]|by right].
Qed.




(** The loop on gists that are all servable. *)
Lemma search_loop_servable pattern username p gists : ∀ matches σ,
  py_re_compile pattern = Return p →
  Forall servable' gists →
  ∃ ms, search_loop' pattern username gists matches σ
        = Some (Return ms,
                State (default_data σ) (requests σ ++ fetch_urls' gists)).
Proof.
  intros matches σ Hp Hall. revert matches σ.
  induction Hall as [|gist rest (id & gist_data & Hid & Hg & Hc) _ IH];
    intros matches σ; simpl.
  { exists matches. unfold ret. rewrite app_nil_r. by destruct σ. }
  unfold bind at 1. rewrite search_step_run, Hid.
  rewrite (get_gist_indep _ _ _ _ σ _ _ Hg).
  unfold fetch_urls, listed_id. simpl. rewrite Hid. simpl.
  fold (fetch_urls' rest).
  assert (∀ ms1, ∃ ms,
    search_loop' pattern username rest ms1 (fetched' id σ)
    = Some (Return ms,
            State (default_data σ)
                  (requests σ ++ gist_api_url' id :: fetch_urls' rest)))
    as Hrest.
  { intros ms1. destruct (IH ms1 (fetched' id σ)) as [ms Hms].
    exists ms. rewrite Hms. simpl. by rewrite <- app_assoc. }
  destruct (truthy gist_data); [|apply Hrest].
  destruct (Hc eq_refl) as [text ->]. rewrite Hp. apply Hrest.
Qed.

(** X12: [search] answers whenever the listing can be read to its end,
    the pattern compiles, and every gist then in the default list is a
    mapping whose fetch completes with a record that aggregates; it has
    then made one request per page and one per gist, in this order. *)
Theorem search_returns
    (fuel : nat) (u pat : string) (p : Pattern) (σ : state)
    (pages : list (string * list json)) :
  u ≠ "" → pat ≠ "" →
  re_compile pat = Some p →
  follows' (gists_url' (JStr u) None) pages None →
  (length pages ≤ fuel)%nat →
  Forall servable' (default_data σ ++ items_of pages) →
  ∃ r σ',
    search' fuel (payload u pat) σ = Some (Return r, σ')
    ∧ requests σ'
      = requests σ ++ pages.*1
        ++ fetch_urls' (default_data σ ++ items_of pages).
Proof.
  intros Hu Hpat Hre Hf Hfuel Hall. unfold payload.
  rewrite search_run_valid.
  2:{ simpl. apply String.eqb_neq in Hu, Hpat. by rewrite Hu, Hpat. }
  rewrite (gists_for_user_complete str_other api pages fuel (JStr u) None σ)
    by done.
  simpl.
  edestruct (search_loop_servable (JStr pat) (JStr u) p
               (default_data σ ++ items_of pages) [])
    as [ms Hms]; [by simpl; rewrite Hre|done|].
  rewrite Hms. do 2 eexists. split; [done|]. simpl. by rewrite <- app_assoc.
Qed.

(** *** A pattern that does not compile *)

#[local] Abbreviation no_record' := (no_record str_other api).
#[local] Abbreviation some_record' := (some_record str_other api).

(** The loop passes the gists without a record, fetching each, and
    never looks at the pattern. *)
Lemma search_loop_no_records pattern username pre :
  Forall no_record' pre →
  ∀ rest matches σ,
    search_loop' pattern username (pre ++ rest) matches σ
    = search_loop' pattern username rest matches
        (State (default_data σ) (requests σ ++ fetch_urls' pre)).
Proof.
  induction 1 as [|gist pre (id & gist_data & Hid & Hg & Ht) _ IH];
    intros rest matches σ; simpl.
  { rewrite app_nil_r. by destruct σ. }
  unfold bind at 1. rewrite search_step_run, Hid.
  rewrite (get_gist_indep _ _ _ _ σ _ _ Hg), Ht, IH.
  unfold fetch_urls, listed_id. simpl. rewrite Hid. simpl.
  by rewrite <- app_assoc.
Qed.

(** At a gist with a record the pattern is compiled, after the fetch. *)
Lemma search_loop_some_record pattern username gist post matches σ :
  py_re_compile pattern = Raise ReError →
  some_record' gist →
  search_loop' pattern username (gist :: post) matches σ
  = Some (Raise ReError,
          State (default_data σ) (requests σ ++ fetch_urls' [gist])).
Proof.
  intros Hp (id & gist_data & Hid & Hg & Ht). simpl.
  unfold bind at 1. rewrite search_step_run, Hid.
  rewrite (get_gist_indep _ _ _ _ σ _ _ Hg), Ht, Hp.
  unfold fetch_urls, listed_id. simpl. by rewrite Hid.
Qed.

(** Conversely, what the outcome of the loop says of the gists. *)
Lemma search_loop_invalid_inv pattern username gists :
  ∀ matches σ out σ',
  py_re_compile pattern = Raise ReError →
  search_loop' pattern username gists matches σ = Some (out, σ') →
  match out with
  | Return ms => ms = matches ∧ Forall no_record' gists
  | Raise e =>
    e = ReError →
    ∃ pre gist post,
      gists = pre ++ gist :: post ∧ Forall no_record' pre
      ∧ some_record' gist
  end.
Proof.
  induction gists as [|gist rest IH]; intros matches σ out σ' Hp; simpl.
  { by intros [= <- <-]. }
  unfold bind at 1. rewrite search_step_run, Hp.
  destruct (py_get gist "id" JNull) as [id|e0] eqn:Hid.
  2:{ intros [= <- <-] ->. destruct gist; simpl in Hid; congruence. }
  destruct (get_gist' id σ) as [[[gist_data|e0] σ1]|] eqn:Hg; [| |done].
  2:{ intros [= <- <-] ->. apply get_gist_raise in Hg. congruence. }
  apply (get_gist_indep _ _ _ _ initial_state) in Hg.
  destruct (truthy gist_data) eqn:Ht.
  - intros [= <- <-] _. exists [], gist, rest.
    split; [done|]. split; [by constructor|]. by exists id, gist_data.
  - assert (no_record' gist) as Hno by (by exists id, gist_data).
    intros Hloop. apply (IH _ _ _ _ Hp) in Hloop.
    destruct out as [ms|e].
    + destruct Hloop as [-> Hall]. split; [done|by constructor].
    + intros He. destruct (Hloop He) as (pre & g & post & -> & Hpre & Hg').
      exists (gist :: pre), g, post. split; [done|].
      split; [by constructor|done].
Qed.

(** C2, as the code has it: with a pattern that does not compile and a
    listing that is returned, [search] fetches the listed gists in
    order and rejects the request with the compilation error, which is
    not a [ValueError] and is not caught, at the first gist whose fetch
    gives a record, when the gists before it gave none; the requests
    made by then are the fetches of these gists, this one included.
    When no listed gist gives a record the search returns [success]
    with no matches.  These are the only ways it raises the
    compilation error or returns. *)
Theorem search_invalid_pattern
    (fuel : nat) (u pat : string) (σ σ0 : state) (listing : listref) :
  u ≠ "" → pat ≠ "" →
  re_compile pat = None →
  gists_for_user' fuel (JStr u) None σ = Some (Return listing, σ0) →
  (∀ pre gist post,
     deref σ0 listing = pre ++ gist :: post →
     Forall no_record' pre → some_record' gist →
     search' fuel (payload u pat) σ
     = Some (Raise ReError,
             State (default_data σ0)
                   (requests σ0 ++ fetch_urls' (pre ++ [gist]))))
  ∧ (Forall no_record' (deref σ0 listing) →
     search' fuel (payload u pat) σ
     = Some (Return (Result "success" (JStr u) (JStr pat) []),
             State (default_data σ0)
                   (requests σ0 ++ fetch_urls' (deref σ0 listing))))
  ∧ (∀ σ', search' fuel (payload u pat) σ = Some (Raise ReError, σ') →
       ∃ pre gist post,
         deref σ0 listing = pre ++ gist :: post
         ∧ Forall no_record' pre ∧ some_record' gist)
  ∧ (∀ r σ', search' fuel (payload u pat) σ = Some (Return r, σ') →
       Forall no_record' (deref σ0 listing))
  ∧ (∀ msg σ',
       search' fuel (payload u pat) σ ≠ Some (Raise (ValueError msg), σ')).
Proof.
  intros Hu Hpat Hre Hl. unfold payload.
  assert (py_re_compile (JStr pat) = Raise ReError) as Hp.
  { simpl. by rewrite Hre. }
  rewrite search_run_valid.
  2:{ simpl. apply String.eqb_neq in Hu, Hpat. by rewrite Hu, Hpat. }
  rewrite Hl. split; [|split; [|split; [|split]]].
  - intros pre gist post -> Hpre Hgist.
    rewrite (search_loop_no_records _ _ _ Hpre).
    rewrite (search_loop_some_record _ _ _ _ _ _ Hp Hgist). simpl.
    unfold fetch_urls. by rewrite omap_app, <- app_assoc.
  - intros Hall.
    pose proof (search_loop_no_records (JStr pat) (JStr u) _ Hall [] [] σ0)
      as Hrun.
    rewrite app_nil_r in Hrun. rewrite Hrun. simpl. unfold ret, list_set.
    by rewrite list_to_set_nil, elements_empty.
  - intros σ'.
    destruct (search_loop' (JStr pat) (JStr u) (deref σ0 listing) [] σ0)
      as [[[ms|e] σ1]|] eqn:Hloop; [done| |done].
    intros [= -> <-].
    by apply (search_loop_invalid_inv _ _ _ _ _ _ _ Hp Hloop).
  - intros r σ'.
    destruct (search_loop' (JStr pat) (JStr u) (deref σ0 listing) [] σ0)
      as [[[ms|e] σ1]|] eqn:Hloop; [|done..].
    intros _.
    by destruct (search_loop_invalid_inv _ _ _ _ _ _ _ Hp Hloop).
  - intros msg σ'.
    destruct (search_loop' (JStr pat) (JStr u) (deref σ0 listing) [] σ0)
      as [[[ms|e] σ1]|] eqn:Hloop; [done| |done].
    intros [= -> <-]. by eapply search_loop_raise.
Qed.

End search_accounts.

(** * The properties on the concrete upstream *)

Section cases.

Import MiniRe Example.

#[local] Abbreviation step := (search_step Example.str_other Example.api).
#[local] Abbreviation fetch := (get_gist Example.str_other Example.api).
#[local] Abbreviation fetched' := (fetched Example.str_other).
#[local] Abbreviation html_url := (gist_html_url Example.str_other).

Lemma alice_follows :
  follows Example.str_other Example.api
    (gists_url Example.str_other (JStr "alice") None) alice_pages None.
Proof.
  simpl. split; [done|]. eexists. split; [done|]. repeat split; [done|].
  eexists. split; [done|]. repeat split; [done|].
  eexists. split; [done|]. by repeat split.
Qed.

Lemma bob_follows :
  follows Example.str_other Example.api
    (gists_url Example.str_other (JStr "bob") None) bob_pages
    (Some (page "b2")).
Proof.
  simpl. split; [done|]. eexists. split; [done|]. by repeat split.
Qed.

(** The scenario of the specification: of alice's gists, "hello world",
    "goodbye" and "say hello", the pattern [^hello] finds the first. *)
Example search_alice_hello :
  ∃ σ', run_search 3 (payload "alice" "^hello") initial_state
        = Some (Return (Result "success" (JStr "alice") (JStr "^hello")
                          ["https://gist.github.com/alice/1"]), σ').
Proof. eexists. vm_compute. reflexivity. Qed.

(** "say hello" holds a match of [hello], but not at its beginning. *)
Example say_hello_search_not_match :
  Pattern_search (compiled "hello") ("say hello" +:+ newline) = true
  ∧ Pattern_match (compiled "hello") ("say hello" +:+ newline) = false.
Proof. by vm_compute. Qed.

(** C1 on alice's third gist, whose only match of [hello] is mid-string:
    the turn of the loop records nothing. *)
Lemma search_step_prefix_match_witness :
  ∃ matches',
    step (JStr "hello") (JStr "alice") (summary "3") [] initial_state
      = Some (Return matches', fetched' (JStr "3") initial_state)
    ∧ (matches' = [] ++ [html_url (JStr "alice") (JStr "3")]
       ↔ match_at (compiled "hello") ("say hello" +:+ newline) 0 = true)
    ∧ (matches' = []
       ↔ match_at (compiled "hello") ("say hello" +:+ newline) 0 = false).
Proof.
  eapply (search_step_prefix_match Example.str_other Example.api
            (JStr "hello") (JStr "alice") (summary "3") (JStr "3")).
  - reflexivity.
  - vm_compute. reflexivity.
  - reflexivity.
  - reflexivity.
  - reflexivity.
Defined.

(** C2 refuted: carol has no gist, and the pattern ["("], which does not
    compile, is never compiled: the search succeeds.  For alice the
    same pattern is rejected, after her first gist has been fetched. *)
Lemma search_invalid_pattern_not_rejected :
  re_compile "(" = None
  ∧ run_search 3 (payload "carol" "(") initial_state
    = Some (Return (Result "success" (JStr "carol") (JStr "(") []),
            State [] [users +:+ "carol" +:+ first_page])
  ∧ run_search 3 (payload "alice" "(") initial_state
    = Some (Raise ReError,
            State (items_of alice_pages)
                  (alice_pages.*1 ++ [gists +:+ "1"])).
Proof. by vm_compute. Qed.

(** C2 as amended, on dave: his first gist has no record and is passed,
    his second has one, and the request is rejected once both have
    been fetched. *)
Lemma search_invalid_pattern_witness :
  "dave" ≠ "" ∧ "(" ≠ "" ∧ re_compile "(" = None
  ∧ run_search 3 (payload "dave" "(") initial_state
    = Some (Raise ReError,
            State [summary "5"; summary "6"; summary "7"; summary "8"]
                  [users +:+ "dave" +:+ first_page;
                   gists +:+ "5"; gists +:+ "6"]).
Proof.
  split; [done|]. split; [done|]. split; [done|].
  refine (proj1 (search_invalid_pattern Example.str_other Example.api
    3 "dave" "(" initial_state
    (State [summary "5"; summary "6"; summary "7"; summary "8"]
           [users +:+ "dave" +:+ first_page])
    DefaultArg _ _ _ _) [summary "5"] (summary "6")
    [summary "7"; summary "8"] eq_refl _ _); [done|done|done|by vm_compute| |].
  - repeat constructor. exists (JStr "5"), (JDict []). by vm_compute.
  - exists (JStr "6"), (JDict [("files", JDict [])]). by vm_compute.
Defined.

(** C3 on alice: the second call returns her three gists twice. *)
Lemma gists_for_user_twice_witness :
  ∃ σ1 σ2,
    run_gists_for_user 3 "alice" initial_state = Some (Return DefaultArg, σ1)
    ∧ run_gists_for_user 3 "alice" σ1 = Some (Return DefaultArg, σ2)
    ∧ deref σ1 DefaultArg = [summary "1"; summary "2"; summary "3"]
    ∧ deref σ2 DefaultArg
      = [summary "1"; summary "2"; summary "3";
         summary "1"; summary "2"; summary "3"].
Proof.
  destruct (gists_for_user_twice Example.str_other Example.api
              alice_pages 3 (JStr "alice") alice_follows)
    as (σ1 & σ2 & H1 & H2 & H3 & H4 & _); [simpl; lia|].
  by exists σ1, σ2.
Defined.

(** C4 refuted: the two keys in the other order are rejected. *)
Lemma search_rejects_reordered_keys :
  run_search 3 (JDict [("pattern", JStr "hello"); ("username", JStr "alice")])
    initial_state
  = Some (Raise (ValueError "Keys does not match with post_data keys"),
          initial_state).
Proof. reflexivity. Qed.

(** C4 as amended, on an empty username. *)
Lemma search_value_error_iff_witness :
  ∃ msg σ', run_search 3 (payload "" "hello") initial_state
            = Some (Raise (ValueError msg), σ').
Proof.
  apply (proj1 (search_value_error_iff Example.str_other Example.api
                  3 (payload "" "hello") initial_state)).
  eexists. split; [done|]. right. by left.
Defined.

(** C5 refuted: gist 7 answers 200 with a body that decodes to a list;
    the fetcher returns [False], not the decoded body. *)
Lemma get_gist_list_body :
  Example.api (gist_api_url Example.str_other (JStr "7"))
    = Some (Response 200 (Some (JList [])) None)
  ∧ fetch (JStr "7") initial_state
    = Some (Return PyFalse, fetched' (JStr "7") initial_state)
  ∧ PyFalse ≠ JList [].
Proof. by vm_compute. Qed.

(** C5 as amended, on alice's first gist: the mapping comes back. *)
Lemma get_gist_absent_iff_witness :
  ∃ r v, Example.api (gist_api_url Example.str_other (JStr "1")) = Some r
    ∧ fetch (JStr "1") initial_state
      = Some (Return v, fetched' (JStr "1") initial_state)
    ∧ (v ≠ PyFalse → json_body r = Some v).
Proof.
  eexists.
  destruct (get_gist_absent_iff Example.str_other Example.api
              (JStr "1") initial_state _ eq_refl) as (v & Hrun & _ & Hv).
  by exists v.
Defined.

(** C6 on alice, in a process that has listed her gists once before:
    three pages of one item, three requests, and six items returned. *)
Lemma gists_for_user_all_pages_witness :
  ∃ σ', run_gists_for_user 3 "alice"
          (State [summary "1"; summary "2"; summary "3"] [])
        = Some (Return DefaultArg, σ')
    ∧ requests σ' = [users +:+ "alice" +:+ first_page; page "2"; page "3"]
    ∧ deref σ' DefaultArg
      = [summary "1"; summary "2"; summary "3";
         summary "1"; summary "2"; summary "3"]
    ∧ deref σ' DefaultArg ≠ items_of alice_pages.
Proof.
  destruct (gists_for_user_all_pages Example.str_other Example.api
              alice_pages 3 (JStr "alice")
              (State [summary "1"; summary "2"; summary "3"] [])
              alice_follows)
    as (σ' & Hrun & Hreq & Hall & _ & Hstale); [simpl; lia|].
  exists σ'. split; [done|]. split; [done|]. split; [done|].
  by apply Hstale.
Defined.

(** C7 refuted: bob's first page is served and his second answers 422;
    the call returns the empty list, without the item of page one. *)
Lemma gists_for_user_drops_pages :
  follows Example.str_other Example.api
    (gists_url Example.str_other (JStr "bob") None) bob_pages
    (Some (page "b2"))
  ∧ Example.api (page "b2") = Some (Response 422 None None)
  ∧ ∃ σ', run_gists_for_user 3 "bob" initial_state
          = Some (Return (Fresh []), σ')
      ∧ summary "4" ∉ deref σ' (Fresh []).
Proof.
  split; [apply bob_follows|]. split; [done|].
  eexists. split; [by vm_compute|]. simpl. apply not_elem_of_nil.
Qed.

(** C7 as amended, on bob. *)
Lemma gists_for_user_failing_page_witness :
  ∃ σ', run_gists_for_user 3 "bob" initial_state
        = Some (Return (Fresh []), σ')
    ∧ requests σ' = [users +:+ "bob" +:+ first_page; page "b2"].
Proof.
  apply (gists_for_user_failing_page Example.str_other Example.api
           bob_pages 3 (JStr "bob") None initial_state (page "b2")
           (Response 422 None None) bob_follows eq_refl).
  - by left.
  - simpl. lia.
Defined.

(** C9 on alice, when the default list still holds her first gist from
    an earlier request: gist 1 is listed and matched twice, and its URL
    is in the result once. *)
Lemma search_matches_nodup_witness :
  ∃ r σ', run_search 3 (payload "alice" "hello") (State [summary "1"] [])
          = Some (Return r, σ')
    ∧ matches r = ["https://gist.github.com/alice/1"]
    ∧ NoDup (matches r)
    ∧ list_set (matches r) = matches r.
Proof.
  eexists (Result "success" (JStr "alice") (JStr "hello")
             ["https://gist.github.com/alice/1"]), _.
  assert (run_search 3 (payload "alice" "hello") (State [summary "1"] [])
          = Some (Return (Result "success" (JStr "alice") (JStr "hello")
                            ["https://gist.github.com/alice/1"]),
                  State (summary "1" :: items_of alice_pages)
                        (alice_pages.*1 ++ [gists +:+ "1"; gists +:+ "1";
                                            gists +:+ "2"; gists +:+ "3"])))
    as Hrun by (by vm_compute).
  split; [exact Hrun|]. split; [done|].
  destruct (search_matches_nodup Example.str_other Example.api _ _ _ _ _ Hrun)
    as (Hnd & Hidem & _).
  by split.
Defined.

(** C10 on dave's gists 5 and 6, with [a*], which matches the empty
    string: the empty mapping of gist 5 is skipped, the empty [files]
    of gist 6 is matched. *)
Lemma search_step_empty_record_witness :
  step (JStr "a*") (JStr "dave") (summary "5") [] initial_state
    = Some (Return [], fetched' (JStr "5") initial_state)
  ∧ step (JStr "a*") (JStr "dave") (summary "6") [] initial_state
    = Some (Return ["https://gist.github.com/dave/6"],
            fetched' (JStr "6") initial_state).
Proof.
  split.
  - apply (proj1 (search_step_empty_record Example.str_other Example.api
                    (JStr "a*") (JStr "dave") (summary "5") (JStr "5") []
                    initial_state (fetched' (JStr "5") initial_state)
                    eq_refl)).
    by vm_compute.
  - apply (proj2 (proj2 (search_step_empty_record Example.str_other
                    Example.api (JStr "a*") (JStr "dave") (summary "6")
                    (JStr "6") [] initial_state
                    (fetched' (JStr "6") initial_state) eq_refl))
             [("files", JDict [])] (compiled "a*" : @Pattern engine));
      by vm_compute.
Defined.

(** ** The further properties on the concrete upstream *)

#[local] Abbreviation loop := (search_loop Example.str_other Example.api).
#[local] Abbreviation lister := (gists_for_user Example.str_other).

Lemma alice_follows_flaky :
  follows Example.str_other flaky
    (gists_url Example.str_other (JStr "alice") None)
    (take 2 alice_pages) (Some (page "3")).
Proof.
  simpl. split; [done|]. eexists. split; [done|]. repeat split; [done|].
  eexists. split; [done|]. by repeat split.
Qed.

Lemma alice_servable :
  Forall (servable Example.str_other Example.api)
    (default_data initial_state ++ items_of alice_pages).
Proof.
  repeat constructor; do 2 eexists;
    (split; [reflexivity|]); (split; [by vm_compute|]);
    intros _; by eexists.
Qed.

(** X1 on a record of two files. *)
Lemma get_gist_files_content_joined_witness :
  get_gist_files_content
    (JDict [("id", JStr "9");
            ("files", JDict [gist_file "a.txt" "hello";
                             gist_file "b.txt" "world"])])
  = Return ("hello" +:+ newline +:+ "world" +:+ newline).
Proof.
  apply (get_gist_files_content_joined _
           [gist_file "a.txt" "hello"; gist_file "b.txt" "world"]
           ["hello"; "world"]); [done|].
  repeat constructor; by eexists.
Defined.

(** X4 on bob, whose second page is refused. *)
Lemma gists_for_user_result_witness :
  ∃ σ', run_gists_for_user 3 "bob" initial_state
        = Some (Return (Fresh []), σ')
    ∧ (Fresh [] = DefaultArg ∨ Fresh [] = Fresh []).
Proof.
  eexists. split; [by vm_compute|].
  eapply (gists_for_user_result Example.str_other Example.api 3 (JStr "bob")
            None initial_state _ (Return (Fresh []))).
  vm_compute. reflexivity.
Defined.

(** X5 on alice: three requests, three items appended. *)
Lemma gists_for_user_appends_witness :
  ∃ σ' items reqs,
    run_gists_for_user 3 "alice" initial_state = Some (Return DefaultArg, σ')
    ∧ default_data σ' = default_data initial_state ++ items
    ∧ requests σ'
      = requests initial_state
        ++ gists_url Example.str_other (JStr "alice") None :: reqs
    ∧ (length reqs < 3)%nat.
Proof.
  eexists.
  destruct (gists_for_user_appends Example.str_other Example.api 3
              (JStr "alice") None initial_state
              (State (items_of alice_pages) alice_pages.*1)
              (Return DefaultArg))
    as (items & reqs & Hd & Hq & Hn); [by vm_compute|].
  exists items, reqs. split; [by vm_compute|]. done.
Defined.

(** X6 on alice when her third page cannot be reached: the call gives
    an empty list; the same URL asked for first lets the failure out. *)
Lemma gists_for_user_unreachable_witness :
  lister flaky 3 (JStr "alice") None initial_state
  = Some (Return (Fresh []),
          State [summary "1"; summary "2"]
                [users +:+ "alice" +:+ first_page; page "2"; page "3"])
  ∧ lister flaky 3 (JStr "") (Some (page "3")) initial_state
    = Some (Raise ConnectionError, State [] [page "3"]).
Proof.
  split.
  - apply (gists_for_user_unreachable Example.str_other flaky
             (take 2 alice_pages) 3 (JStr "alice") None initial_state
             (page "3") alice_follows_flaky); [done|simpl; lia].
  - apply (gists_for_user_unreachable Example.str_other flaky
             [] 3 (JStr "") (Some (page "3")) initial_state (page "3"));
      [done|done|simpl; lia].
Defined.

(** X7 on bob, then alice: her listing comes back with his gist first. *)
Lemma gists_for_user_leaks_witness :
  ∃ σ1 σ2,
    run_gists_for_user 3 "bob" initial_state = Some (Return (Fresh []), σ1)
    ∧ run_gists_for_user 3 "alice" σ1 = Some (Return DefaultArg, σ2)
    ∧ deref σ2 DefaultArg
      = [summary "4"; summary "1"; summary "2"; summary "3"].
Proof.
  apply (gists_for_user_leaks Example.str_other Example.api
           bob_pages alice_pages 3 3 (JStr "bob") (JStr "alice")
           initial_state (page "b2") (Response 422 None None)
           bob_follows eq_refl).
  - by left.
  - simpl. lia.
  - apply alice_follows.
  - simpl. lia.
Defined.

(** X8 on alice's three gists. *)
Lemma search_loop_requests_witness :
  ∃ ms σ',
    loop (JStr "hello") (JStr "alice") (items_of alice_pages) []
      initial_state = Some (Return ms, σ')
    ∧ requests σ' = [gists +:+ "1"; gists +:+ "2"; gists +:+ "3"].
Proof.
  do 2 eexists.
  assert (loop (JStr "hello") (JStr "alice") (items_of alice_pages) []
            initial_state
          = Some (Return ["https://gist.github.com/alice/1"],
                  State [] [gists +:+ "1"; gists +:+ "2"; gists +:+ "3"]))
    as Hrun by (by vm_compute).
  split; [exact Hrun|].
  destruct (search_loop_requests Example.str_other Example.api _ _ _ _ _ _ _
              Hrun) as (_ & _ & Hret).
  by destruct (Hret _ eq_refl) as [-> _].
Defined.

(** X9, X10 and X12 on alice and [^hello]. *)
Lemma search_result_echo_witness :
  ∃ r σ', run_search 3 (payload "alice" "^hello") initial_state
          = Some (Return r, σ')
    ∧ payload "alice" "^hello"
      = JDict [("username", username r); ("pattern", pattern r)]
    ∧ status r = "success".
Proof.
  do 2 eexists.
  assert (run_search 3 (payload "alice" "^hello") initial_state
          = Some (Return (Result "success" (JStr "alice") (JStr "^hello")
                            ["https://gist.github.com/alice/1"]),
                  State (items_of alice_pages)
                        (alice_pages.*1 ++ [gists +:+ "1"; gists +:+ "2";
                                            gists +:+ "3"])))
    as Hrun by (by vm_compute).
  split; [exact Hrun|].
  destruct (search_result_echo Example.str_other Example.api _ _ _ _ _ Hrun)
    as (Hpost & Hst & _).
  by split.
Defined.

Lemma search_matches_iff_witness :
  ∃ σ0, run_gists_for_user 3 "alice" initial_state
        = Some (Return DefaultArg, σ0)
    ∧ ∀ url, url ∈ ["https://gist.github.com/alice/1"]
             ↔ ∃ gist, gist ∈ deref σ0 DefaultArg
                 ∧ reported Example.str_other Example.api
                     (JStr "^hello") (JStr "alice") gist url.
Proof.
  assert (run_search 3 (payload "alice" "^hello") initial_state
          = Some (Return (Result "success" (JStr "alice") (JStr "^hello")
                            ["https://gist.github.com/alice/1"]),
                  State (items_of alice_pages)
                        (alice_pages.*1 ++ [gists +:+ "1"; gists +:+ "2";
                                            gists +:+ "3"])))
    as Hrun by (by vm_compute).
  destruct (search_matches_iff Example.str_other Example.api _ _ _ _ _ Hrun)
    as (listing & σ0 & Hl & Hiff).
  cbn [username pattern matches] in Hl, Hiff. unfold run_gists_for_user.
  rewrite (gists_for_user_complete Example.str_other Example.api
             alice_pages 3 (JStr "alice") None initial_state alice_follows)
    in Hl |- * by (simpl; lia).
  injection Hl as <- <-. eexists. split; [reflexivity|exact Hiff].
Defined.

Lemma search_returns_witness :
  ∃ r σ', run_search 3 (payload "alice" "^hello") initial_state
          = Some (Return r, σ')
    ∧ requests σ'
      = [users +:+ "alice" +:+ first_page; page "2"; page "3";
         gists +:+ "1"; gists +:+ "2"; gists +:+ "3"].
Proof.
  apply (search_returns Example.str_other Example.api 3 "alice" "^hello"
           (compiled "^hello" : @Pattern engine) initial_state alice_pages);
    [done|done|done|apply alice_follows|simpl; lia|apply alice_servable].
Defined.


End cases.
